(** * reheat: the save/destroy lifecycle and the pooled Connection

  A shallow embedding of [lib/model/prototype/save.js] and of the
  Connection class (the pool wrapper), with the JavaScript values the
  two files inspect, the [utils] helpers they call and the errors they
  raise.  [Model#destroy], whose source file is not at hand, is modelled
  from its specification.

  Callbacks are opaque function values; every call of one is recorded in
  an event log together with the pool and database interactions, so that
  ordering properties can be read off the log.  The driver, the pool and
  the database are collaborators: what they answer is a parameter of
  each operation.

  A callback-passing sequence ([async.waterfall]) is run to completion
  where it is started, inside the [try] block that encloses it.  This
  matters only when a task of the sequence throws ([AcquireThrows],
  [QueryThrows], [RunThrows]): a release of the library that defers its
  tasks lets such an exception escape the block, and then no callback
  is called.  The properties below that promise a call of the callback
  therefore leave those outcomes out.  The one property about a task
  that throws (the handle that stays checked out when the query throws)
  reads its log through this choice; what it says of the state, as what
  the others say of handles and attributes, holds either way. *)

From stdpp Require Import gmap strings list fin_maps pretty.
From Stdlib Require Import ZArith.

#[local] Set Warnings "-register-all".
#[local] Open Scope Z_scope.

(** ** JavaScript values *)

Module JS.

(** The values that reach the modelled code: primitives, opaque
    function objects (named, so that two callbacks can be told apart),
    arrays and plain objects.  Numbers are integers; nothing in the
    modelled code does arithmetic on them. *)
Inductive value : Type :=
| VUndefined
| VNull
| VBool (b : bool)
| VNum (n : Z)
| VStr (s : string)
| VFun (name : string)
| VArr (items : list value)
| VObj (fields : gmap string value).

Abbreviation obj := (gmap string value).

(** [o.k] on an object. *)
Definition field (o : obj) (k : string) : value :=
  default VUndefined (o !! k).

(** ToBoolean. *)
Definition truthy (v : value) : bool :=
  match v with
  | VUndefined | VNull => false
  | VBool b => b
  | VNum n => negb (n =? 0)
  | VStr s => negb (String.eqb s "")
  | VFun _ | VArr _ | VObj _ => true
  end.

(** [a || b]. *)
Definition js_or (a b : value) : value := if truthy a then a else b.

(** [v !== 0]. *)
Definition not_strictly_zero (v : value) : bool :=
  match v with
  | VNum 0 => false
  | _ => true
  end.

(** [v == null]: null or undefined. *)
Definition nullish (v : value) : bool :=
  match v with
  | VUndefined | VNull => true
  | _ => false
  end.

Definition typeof (v : value) : string :=
  match v with
  | VUndefined => "undefined"
  | VNull => "object"
  | VBool _ => "boolean"
  | VNum _ => "number"
  | VStr _ => "string"
  | VFun _ => "function"
  | VArr _ => "object"
  | VObj _ => "object"
  end.

(** *** [utils]: the type predicates and [deepMixIn]

    [lib/support/utils] re-exports the [mout] helpers of the same names:
    each [isX] compares the internal class of the value with [X]. *)

Definition isFunction (v : value) : bool :=
  match v with VFun _ => true | _ => false end.

Definition isObject (v : value) : bool :=
  match v with VObj _ => true | _ => false end.

Definition isNumber (v : value) : bool :=
  match v with VNum _ => true | _ => false end.

Definition isString (v : value) : bool :=
  match v with VStr _ => true | _ => false end.

Definition isBoolean (v : value) : bool :=
  match v with VBool _ => true | _ => false end.

(** [copyProp]: one own property [val] of the source is copied onto the
    target, whose current value for that key is [existing].  When both
    are plain objects the target's object is mixed into recursively,
    otherwise the target's property is overwritten.  [incoming] pairs
    the source value with the recursive mixer for it. *)
Definition copyProp (existing : option value)
    (incoming : option (value * (obj -> obj))) : option value :=
  match incoming with
  | None => existing
  | Some (val, rec) =>
      match val, existing with
      | VObj _, Some (VObj tgt) => Some (VObj (rec tgt))
      | _, _ => Some val
      end
  end.

(** The own enumerable properties of an array or of a string: its
    elements under their indices, written in decimal. *)
Definition indexed {A : Type} (l : list A) : gmap string A :=
  list_to_map (imap (fun n x => (pretty n, x)) l).

(** The characters of a string, each a string of length one. *)
Definition characters (s : string) : list value :=
  (fun c => VStr (String c EmptyString)) <$> String.list_ascii_of_string s.

(** [mixer source target]: [forOwn(source, copyProp, target)], every own
    enumerable property of [source] copied onto [target] with
    [copyProp].  A plain object has its fields, an array its elements
    and a string its characters, both under their indices; numbers,
    booleans and functions have none. *)
Fixpoint mixer (source : value) : obj -> obj :=
  match source with
  | VObj src =>
      fun target => merge copyProp target ((fun v => (v, mixer v)) <$> src)
  | VArr items =>
      fun target =>
        merge copyProp target (indexed ((fun v => (v, mixer v)) <$> items))
  | VStr s =>
      fun target =>
        merge copyProp target
          (indexed ((fun v => (v, fun t : obj => t)) <$> characters s))
  | _ => fun target => target
  end.

(** [utils.deepMixIn(target, source)] for an object source. *)
Definition deepMixIn (target source : obj) : obj :=
  mixer (VObj source) target.

(** [utils.deepMixIn(target, source)] for an arbitrary source value:
    falsy sources are skipped ([if (obj)]). *)
Definition deepMixIn_value (target : obj) (source : value) : obj :=
  if truthy source then mixer source target else target.

(** The size of a value, used for induction under objects. *)
Fixpoint vsize (v : value) : nat :=
  match v with
  | VObj fields => S (map_fold (fun _ x acc => (vsize x + acc)%nat) 0%nat fields)
  | _ => 1%nat
  end.

(** *** Errors

    [lib/support/errors]: [IllegalArgumentError(message, errors)] and
    [UnhandledError(original)].  [DriverError] stands for any error
    object raised by the driver, the pool or the runtime.  The original
    of an [UnhandledError] is whatever was thrown or passed as [err]: an
    error object or a plain value such as a string. *)
Inductive jserror : Type :=
| DriverError (message : string)
| IllegalArgumentError (message : string) (errors : obj)
| UnhandledError (original : cause)
with cause : Type :=
| CauseError (e : jserror)
| CauseValue (v : value).

Definition is_IllegalArgumentError (e : jserror) : bool :=
  match e with IllegalArgumentError _ _ => true | _ => false end.

(** [{ actual: a, expected: e }] *)
Definition actual_expected (a e : string) : obj :=
  {[ "actual" := VStr a; "expected" := VStr e ]}.

End JS.

(** ** Effects: state, exceptions and try/catch *)

Module Eff.
Import JS.

Inductive completion (A : Type) : Type :=
| Normal (a : A)
| Throw (e : jserror).
Arguments Normal {A} a.
Arguments Throw {A} e.

Definition M (S A : Type) : Type := S -> completion A * S.

Definition ret {S A} (a : A) : M S A := fun s => (Normal a, s).

Definition bind {S A B} (m : M S A) (k : A -> M S B) : M S B :=
  fun s =>
    match m s with
    | (Normal a, s') => k a s'
    | (Throw e, s') => (Throw e, s')
    end.

Definition throw {S A} (e : jserror) : M S A := fun s => (Throw e, s).

(** [try { body } catch (err) { handler(err) }]: state changes made by
    the body before the throw are kept. *)
Definition try_catch {S A} (body : M S A) (handler : jserror -> M S A) : M S A :=
  fun s =>
    match body s with
    | (Normal a, s') => (Normal a, s')
    | (Throw e, s') => handler e s'
    end.

Definition gets {S A} (f : S -> A) : M S A := fun s => (Normal (f s), s).

Definition modify {S} (f : S -> S) : M S unit := fun s => (Normal tt, f s).

(** A call that throws when the oracle says so. *)
Definition may_throw {S} (o : option jserror) : M S unit :=
  match o with
  | Some e => throw e
  | None => ret tt
  end.

Definition when {S} (b : bool) (m : M S unit) : M S unit :=
  if b then m else ret tt.

End Eff.

Declare Scope eff_scope.
Delimit Scope eff_scope with eff.
Notation "x <- c1 ;; c2" := (Eff.bind c1 (fun x => c2))
(at level 100, c1 at next level, right associativity) : eff_scope.
Notation "c1 ;;; c2" := (Eff.bind c1 (fun _ => c2))
(at level 100, right associativity) : eff_scope.

(** ** Connection: the pool wrapper *)

Module Connection.
Import JS Eff.
#[local] Open Scope eff_scope.
#[local] Open Scope string_scope.

(** [Connection~defaults]. *)
Definition defaults : obj :=
  list_to_map
    [ ("port", VNum 28015); ("host", VStr "localhost"); ("db", VStr "test");
      ("authKey", VStr "");
      ("name", VStr ""); ("max", VNum 1); ("min", VNum 0);
      ("log", VBool false); ("idleTimeoutMillis", VNum 30000);
      ("refreshIdle", VBool true); ("reapIntervalMillis", VNum 1000);
      ("priorityRange", VNum 1) ].

(** A generic-pool instance.  [pool_id] is the object's identity;
    [pool_settings] are the eight settings [createPool] copies out of the
    configuration when the pool is built.  (The [create] factory reads
    host, port, db and authKey from the configuration object only when
    a handle is opened.) *)
Record pool : Type := { pool_id : nat; pool_settings : obj }.

(** A live database client handle. *)
Definition handle : Type := nat.

Inductive arg : Type :=
| AError (e : jserror)
| AValue (v : value).

Inductive event : Type :=
| PoolCreated (p : pool)
| Drain (p : pool)
| DestroyAllNow (p : pool)
| Acquire
| Acquired (h : handle)
| QueryRun (query : value) (options : obj) (h : handle)
| Release (h : handle)
| Callback (cb : value) (args : list arg).

(** The private variables of one Connection instance ([_config],
    [_pool]), the pools made so far, the old pools whose drain has been
    requested (each with the [cb] its drain continuation closes over),
    the handles checked out of the pool, and the event log. *)
Record state : Type := {
  _config : obj;
  _pool : option pool;
  pools_made : nat;
  draining : list (pool * value);
  checked_out : list handle;
  log : list event
}.

Definition emit (e : event) : M state unit :=
  modify (fun s =>
    {| _config := _config s; _pool := _pool s; pools_made := pools_made s;
       draining := draining s; checked_out := checked_out s;
       log := log s ++ [e] |}).

(** [cb(args...)] *)
Definition call (cb : value) (args : list arg) : M state unit :=
  emit (Callback cb args).

(** [createPool(options)] *)
Definition createPool (options : obj) : M state pool :=
  n <- gets pools_made ;;
  let p := {| pool_id := n;
              pool_settings :=
                list_to_map
                  (map (fun k => (k, field options k))
                     [ "name"; "max"; "min"; "idleTimeoutMillis"; "log";
                       "refreshIdle"; "reapIntervalMillis"; "priorityRange" ]) |} in
  modify (fun s =>
    {| _config := _config s; _pool := _pool s; pools_made := S (pools_made s);
       draining := draining s; checked_out := checked_out s;
       log := log s |}) ;;;
  emit (PoolCreated p) ;;;
  ret p.

(** The types the configuration options are checked against. *)
Inductive kind : Type := KNumber | KString | KBoolean | KBooleanOrFunction.

Definition has_kind (k : kind) (v : value) : bool :=
  match k with
  | KNumber => isNumber v
  | KString => isString v
  | KBoolean => isBoolean v
  | KBooleanOrFunction => isBoolean v || isFunction v
  end.

(** The word used in the message, and the [expected] entry. *)
Definition kind_phrase (k : kind) : string :=
  match k with
  | KNumber => "number"
  | KString => "string"
  | KBoolean => "boolean"
  | KBooleanOrFunction => "boolean or a function"
  end.

Definition kind_expected (k : kind) : string :=
  match k with
  | KNumber => "number"
  | KString => "string"
  | KBoolean => "boolean"
  | KBooleanOrFunction => "boolean|function"
  end.

(** The recognised options, in the order of the [else if] chain of
    [_configure]. *)
Definition recognized : list (string * kind) :=
  [ ("port", KNumber); ("db", KString); ("host", KString);
    ("authKey", KString); ("name", KString); ("max", KNumber);
    ("min", KNumber); ("idleTimeoutMillis", KNumber);
    ("log", KBooleanOrFunction); ("refreshIdle", KBoolean);
    ("reapIntervalMillis", KNumber); ("priorityRange", KNumber) ].

(** One link of the chain: [options.key && !utils.isK(options.key)]. *)
Definition rejects (options : obj) (entry : string * kind) : bool :=
  truthy (field options entry.1) && negb (has_kind entry.2 (field options entry.1)).

Definition configure_prefix : string :=
  "Connection#configure(options[, strict][, cb]): ".

Definition option_error (options : obj) (entry : string * kind) : jserror :=
  IllegalArgumentError
    (configure_prefix ++ "options." ++ entry.1 ++ ": Must be a "
       ++ kind_phrase entry.2 ++ "!")
    {[ entry.1 := VObj (actual_expected (typeof (field options entry.1))
                          (kind_expected entry.2)) ]}.

(** The [if / else if] chain of [_configure]: the first failing check
    decides the error; [None] when every check passes. *)
Definition validate (options cb : value) : option jserror :=
  match options with
  | VObj fields =>
      match List.find (rejects fields) recognized with
      | Some entry => Some (option_error fields entry)
      | None =>
          if truthy cb && negb (isFunction cb)
          then Some (IllegalArgumentError
                       (configure_prefix ++ "cb: Must be a function!")
                       (actual_expected (typeof cb) "function"))
          else None
      end
  | _ =>
      Some (IllegalArgumentError
              (configure_prefix ++ "options: Must be an object!")
              (actual_expected (typeof options) "object"))
  end.

Definition set_config (c : obj) : M state unit :=
  modify (fun s =>
    {| _config := c; _pool := _pool s; pools_made := pools_made s;
       draining := draining s; checked_out := checked_out s;
       log := log s |}).

Definition set_pool (p : pool) : M state unit :=
  modify (fun s =>
    {| _config := _config s; _pool := Some p; pools_made := pools_made s;
       draining := draining s; checked_out := checked_out s;
       log := log s |}).

(** [_oldPool.drain(function () { _oldPool.destroyAllNow(); if (cb &&
    utils.isFunction(cb)) { cb(); } })]: the drain is requested and its
    continuation is parked until the pool reports that it has drained.
    The pool does so at once, before [drain] returns, when none of its
    handles is out, and later otherwise; in both cases that moment is
    the step [drain_complete] below, which then follows [configure]
    with nothing in between or with other calls in between. *)
Definition drain (old : pool) (cb : value) : M state unit :=
  emit (Drain old) ;;;
  modify (fun s =>
    {| _config := _config s; _pool := _pool s; pools_made := pools_made s;
       draining := draining s ++ [(old, cb)]; checked_out := checked_out s;
       log := log s |}).

(** The oldest requested drain finishes: its continuation runs. *)
Definition drain_complete : M state unit :=
  d <- gets draining ;;
  match d with
  | [] => ret tt
  | (old, cb) :: rest =>
      modify (fun s =>
        {| _config := _config s; _pool := _pool s; pools_made := pools_made s;
           draining := rest; checked_out := checked_out s;
           log := log s |}) ;;;
      emit (DestroyAllNow old) ;;;
      when (truthy cb && isFunction cb) (call cb [])
  end.

(** The optional second argument: [if (utils.isFunction(strict)) { cb =
    strict; strict = false; }]. *)
Definition configure_shift (strict cb : value) : value * value :=
  if isFunction strict then (VBool false, strict) else (strict, cb).

(** [_configure(options, strict, cb)] *)
Definition configure (options strict cb : value) : M state unit :=
  let options := js_or options (VObj ∅) in
  let '(strict, cb) := configure_shift strict cb in
  match validate options cb with
  | Some error =>
      if truthy cb && isFunction cb then call cb [AError error]
      else throw error
  | None =>
      _oldPool <- gets _pool ;;
      c <- gets _config ;;
      (if truthy strict
       then set_config (mixer options (deepMixIn c defaults))
       else set_config (mixer options c)) ;;;
      c' <- gets _config ;;
      p <- createPool c' ;;
      set_pool p ;;;
      match _oldPool with
      | Some old => drain old cb
      | None => ret tt
      end
  end.

(** The private state at the start of the constructor. *)
Definition fresh : state :=
  {| _config := ∅; _pool := None; pools_made := 0; draining := [];
     checked_out := []; log := [] |}.

(** [new Connection(options)]: the constructor ends with
    [_configure(options, true)]. *)
Definition construct (options : value) : completion unit * state :=
  configure options (VBool true) VUndefined fresh.

(** *** [Connection#run] *)

(** What the pool answers to [acquire(next)]: it throws (a pool that is
    draining refuses work), reports an error through [next], or hands
    out a handle. *)
Inductive acquire_outcome : Type :=
| AcquireThrows (e : jserror)
| AcquireFails (e : jserror)
| AcquireGives (h : handle).

(** What [query.run(options, next)] does: it throws, or it reports an
    error or a result through [next]. *)
Inductive query_outcome : Type :=
| QueryThrows (e : jserror)
| QueryFails (e : jserror)
| QueryGives (result : value).

Record world : Type := {
  on_acquire : acquire_outcome;
  on_query : value -> obj -> handle -> query_outcome
}.

Definition run_prefix : string := "Connection#run(query[, options], cb): ".

Definition checkout (h : handle) : M state unit :=
  modify (fun s =>
    {| _config := _config s; _pool := _pool s; pools_made := pools_made s;
       draining := draining s; checked_out := h :: checked_out s;
       log := log s |}).

Fixpoint remove_first (h : handle) (l : list handle) : list handle :=
  match l with
  | [] => []
  | x :: rest => if Nat.eqb x h then rest else x :: remove_first h rest
  end.

(** [_this.release(conn)] *)
Definition release (h : handle) : M state unit :=
  modify (fun s =>
    {| _config := _config s; _pool := _pool s; pools_made := pools_made s;
       draining := draining s; checked_out := remove_first h (checked_out s);
       log := log s |}) ;;;
  emit (Release h).

(** The final callback of the waterfall: [conn] is the handle taken by
    the second task, if it ran. *)
Definition finish (cb : value) (conn : option handle)
    (outcome : jserror + value) : M state unit :=
  match conn with
  | Some h => release h
  | None => ret tt
  end ;;;
  match outcome with
  | inl err => call cb [AError (UnhandledError (CauseError err))]
  | inr result => call cb [AValue VNull; AValue result]
  end.

(** The optional second argument: [if (utils.isFunction(options)) { cb
    = options; options = {}; }]. *)
Definition run_shift (options cb : value) : value * value :=
  if isFunction options then (VObj ∅, options) else (options, cb).

(** [Connection#run(query[, options], cb)].  The two tasks of the
    waterfall (take a handle, run the query on it) and its final
    callback [finish] are run in place, inside the [try]; see the head
    of the file for a task that throws. *)
Definition run (w : world) (query options cb : value) : M state unit :=
  let options := js_or options (VObj ∅) in
  let '(options, cb) := run_shift options cb in
  if negb (isFunction cb) then
    throw (IllegalArgumentError (run_prefix ++ "cb: Must be a function!")
             (actual_expected (typeof options) "object"))
  else if negb (truthy query) then
    call cb [AError (IllegalArgumentError (run_prefix ++ "query: Required!")
                       (actual_expected (typeof query) "function"))]
  else
    match options with
    | VObj opts =>
        try_catch
          (emit Acquire ;;;
           match on_acquire w with
           | AcquireThrows e => throw e
           | AcquireFails e => finish cb None (inl e)
           | AcquireGives h =>
               checkout h ;;;
               emit (Acquired h) ;;;
               emit (QueryRun query opts h) ;;;
               match on_query w query opts h with
               | QueryThrows e => throw e
               | QueryFails e => finish cb (Some h) (inl e)
               | QueryGives result => finish cb (Some h) (inr result)
               end
           end)
          (fun err => call cb [AError (UnhandledError (CauseError err))])
    | _ =>
        call cb [AError (IllegalArgumentError
                           (run_prefix ++ "options: Must be an object!")
                           (actual_expected (typeof query) "object"))]
    end.

Definition is_callback (e : event) : bool :=
  match e with Callback _ _ => true | _ => false end.

(** State [s] with one more event in its log, all else untouched. *)
Definition logged (s : state) (e : event) : state :=
  {| _config := _config s; _pool := _pool s; pools_made := pools_made s;
     draining := draining s; checked_out := checked_out s;
     log := log s ++ [e] |}.

(** Some recognised option of [fields] holds a value that is not of
    the option's type. *)
Definition wrong_typed (fields : obj) : Prop :=
  exists entry v,
    In entry recognized /\ fields !! entry.1 = Some v /\
    has_kind entry.2 v = false.

(** A configure call is turned down: an [IllegalArgumentError] is
    thrown or handed to the callback, and configuration and pool are
    what they were. *)
Definition turned_down (options strict cb : value) (s : state) : Prop :=
  let r := configure options strict cb s in
  _pool r.2 = _pool s /\ _config r.2 = _config s /\
  exists e, is_IllegalArgumentError e = true /\
    (r.1 = Throw e \/
     log r.2 = (log s ++ [Callback (configure_shift strict cb).2 [AError e]])%list).

(** [n] of the requested drains finish, oldest first. *)
Definition drains_complete (n : nat) (s : state) : state :=
  Nat.iter n (fun s => (drain_complete s).2) s.

End Connection.

(** ** Model: save and destroy *)

Module Model.
Import JS Eff.
#[local] Open Scope eff_scope.
#[local] Open Scope string_scope.

(** The class-level configuration of a model type (the static
    properties [save] reads from [_this.constructor]). *)
Record model : Type := {
  tableName : string;
  timestamps : bool;
  softDelete : bool;
  idAttribute : string
}.

(** A model instance: the three fields the lifecycle touches. *)
Record instance : Type := {
  attributes : obj;
  previousAttributes : value;
  meta : value
}.

(** The write queries [save] and [destroy] build:
    [r.table(t).insert(row, { return_vals })],
    [r.table(t).get(key).update(changes, { return_vals })] and
    [r.table(t).get(key).delete({ return_vals })]. *)
Inductive query : Type :=
| Insert (table : string) (row : obj) (return_vals : bool)
| Update (table : string) (key : value) (changes : obj) (return_vals : bool)
| Delete (table : string) (key : value) (return_vals : bool).

(** What [Model.connection.run(query, options, next)] does: it throws,
    or it passes to [next] an error or the write result object of the
    engine. *)
Inductive run_outcome : Type :=
| RunThrows (e : jserror)
| RunFails (e : jserror)
| RunGives (cursor : obj).

(** The collaborators of [save.js], as its unit tests inject them: the
    driver module [r] and the connection of the model type.
    - [r_now n] is what the call of [r.now()] returns that comes after
      [n] earlier calls of it in the same invocation: with the driver,
      each time a ReQL term for the time at which the server receives
      the query; a stub may answer anything, call by call;
    - [r_table t] is [Some e] when [r.table(t)] throws [e];
    - [r_write q] is [Some e] when building the write [q] from the
      table ([insert], or [get] and [update] / [delete]) throws [e];
    - [connection_run q options] is the outcome of running [q]. *)
Record env : Type := {
  r_now : nat -> value;
  r_table : string -> option jserror;
  r_write : query -> option jserror;
  connection_run : query -> obj -> run_outcome
}.

(** The receiver of a callback: a plain call [cb(...)], or
    [cb.apply(_this, ...)], or [cb.apply(options.context, ...)]. *)
Inductive receiver : Type :=
| NoReceiver
| OnInstance
| OnContext (context : value).

(** A callback argument; an instance is passed by reference, so the
    log records the state it is in when the callback is called. *)
Inductive arg : Type :=
| AError (e : jserror)
| AValue (v : value)
| AInstance (i : instance).

Inductive event : Type :=
| Run (q : query) (options : obj)
| Callback (cb : value) (this : receiver) (args : list arg).

(** [self] is the instance the method was called on ([_this]). *)
Record state : Type := { self : instance; log : list event }.

Definition emit (e : event) : M state unit :=
  modify (fun s => {| self := self s; log := log s ++ [e] |}).

Definition call (cb : value) (this : receiver) (args : list arg) : M state unit :=
  emit (Callback cb this args).

Definition set_attributes (a : obj) : M state unit :=
  modify (fun s =>
    {| self := {| attributes := a;
                  previousAttributes := previousAttributes (self s);
                  meta := meta (self s) |};
       log := log s |}).

(** [_this.attributes[k] = v] *)
Definition set_attribute (k : string) (v : value) : M state unit :=
  a <- gets (fun s => attributes (self s)) ;;
  set_attributes (<[k := v]> a).

Definition set_previousAttributes (v : value) : M state unit :=
  modify (fun s =>
    {| self := {| attributes := attributes (self s);
                  previousAttributes := v;
                  meta := meta (self s) |};
       log := log s |}).

Definition set_meta (v : value) : M state unit :=
  modify (fun s =>
    {| self := {| attributes := attributes (self s);
                  previousAttributes := previousAttributes (self s);
                  meta := v |};
       log := log s |}).

(** Modelled from the spec: [Model#isNew] is not among the sources.
    "An instance is new if and only if its attributes lack a non-null
    value for [the primary-key] field." *)
Definition isNew (m : model) (i : instance) : bool :=
  nullish (field (attributes i) (idAttribute m)).

(** Modelled from the spec: [Model#get] is not among the sources; it
    reads one attribute of the instance by name. *)
Definition get (i : instance) (key : string) : value :=
  field (attributes i) key.

(** The receiver [save] applies the callback to:
    [options.context] when it is truthy, else the instance. *)
Definition receiver_of (options : obj) : receiver :=
  if truthy (field options "context") then OnContext (field options "context")
  else OnInstance.

(** The final callback of the waterfall of [save]. *)
Definition save_done (cb : value) (options : obj)
    (outcome : cause + instance * value) : M state unit :=
  match outcome with
  | inl err => call cb (receiver_of options) [AError (UnhandledError err)]
  | inr (i, m) =>
      call cb (receiver_of options) [AValue VNull; AInstance i; AValue m]
  end.

(** The optional first argument: [if (utils.isFunction(options)) { cb =
    options; options = {}; }]. *)
Definition call_shape (options cb : value) : value * value :=
  if isFunction options then (VObj ∅, options) else (options, cb).

Definition save_prefix : string := "Model#save([options], cb): ".

(** [Model#save([options], cb)], lib/model/prototype/save.js.  Lines
    60 to 74 run inside the [try]; so do, in place, the two tasks of the
    waterfall and its final callback [save_done] (see the head of the
    file for a [connection.run] that throws). *)
Definition save (m : model) (d : env) (options cb : value) : M state unit :=
  let '(options, cb) := call_shape options cb in
  if negb (isFunction cb) then
    throw (IllegalArgumentError (save_prefix ++ "cb: Must be a function!")
             (actual_expected (typeof cb) "function"))
  else
    match options with
    | VObj opts =>
        if truthy (field opts "context") && negb (isObject (field opts "context"))
        then
          call cb NoReceiver
            [AError (IllegalArgumentError
                       (save_prefix ++ "options.context: Must be an object!")
                       (actual_expected (typeof options) "object"))]
        else
          try_catch
            (may_throw (r_table d (tableName m)) ;;;
             when (timestamps m)
               (new <- gets (fun s => isNew m (self s)) ;;
                when new
                  (set_attribute "created" (r_now d 0%nat) ;;;
                   set_attribute "deleted" VNull) ;;;
                set_attribute "updated" (r_now d (if new then 1 else 0)%nat)) ;;;
             _this <- gets self ;;
             let q :=
               if isNew m _this
               then Insert (tableName m) (attributes _this) true
               else Update (tableName m) (get _this (idAttribute m))
                      (attributes _this) true in
             may_throw (r_write d q) ;;;
             (* async.waterfall *)
             emit (Run q opts) ;;;
             match connection_run d q opts with
             | RunThrows err => throw err
             | RunFails err => save_done cb opts (inl (CauseError err))
             | RunGives cursor =>
                 if not_strictly_zero (field cursor "errors") then
                   save_done cb opts
                     (inl (CauseValue
                             (js_or (field cursor "first_error")
                                (VStr "insert failed"))))
                 else
                   a <- gets (fun s => attributes (self s)) ;;
                   set_attributes (deepMixIn_value a (field cursor "new_val")) ;;;
                   _this <- gets self ;;
                   save_done cb opts (inr (_this, VObj cursor))
             end)
            (fun err =>
               call cb (receiver_of opts)
                 [AError (UnhandledError (CauseError err))])
    | _ =>
        call cb NoReceiver
          [AError (IllegalArgumentError
                     (save_prefix ++ "options: Must be an object!")
                     (actual_expected (typeof options) "object"))]
    end.

Definition destroy_prefix : string := "Model#destroy([options], cb): ".

(** The changes a soft delete writes: [deleted] set to the server time,
    and [updated] too when the model type has [timestamps], each from a
    call of [r.now()] of its own. *)
Definition soft_delete_changes (m : model) (d : env) : obj :=
  if timestamps m
  then <["updated" := r_now d 1%nat]> {[ "deleted" := r_now d 0%nat ]}
  else {[ "deleted" := r_now d 0%nat ]}.

(** Modelled from the spec: [lib/model/prototype/destroy.js] is not
    among the sources (only its unit test is).  Section 4.2:
    - the call shape is checked as in [save] ([IllegalArgumentError]);
    - a new instance succeeds at once, with no database interaction;
    - with [softDelete] the write is an update by primary key that sets
      [deleted] (and [updated] with [timestamps]) to the server time and
      asks for the old and new row; otherwise it is a delete by primary
      key that asks for the old row;
    - before the write is issued, [attributes] is snapshot into
      [previousAttributes];
    - on success [attributes] is cleared (physical delete) or the new
      row is merged into it (soft delete), and [meta] is replaced with
      the raw result;
    - failures and the callback receiver are as in [save]. *)
Definition destroy (m : model) (d : env) (options cb : value) : M state unit :=
  let '(options, cb) := call_shape options cb in
  if negb (isFunction cb) then
    throw (IllegalArgumentError (destroy_prefix ++ "cb: Must be a function!")
             (actual_expected (typeof cb) "function"))
  else
    match options with
    | VObj opts =>
        if truthy (field opts "context") && negb (isObject (field opts "context"))
        then
          call cb NoReceiver
            [AError (IllegalArgumentError
                       (destroy_prefix ++ "options.context: Must be an object!")
                       (actual_expected (typeof options) "object"))]
        else
          _this <- gets self ;;
          if isNew m _this then
            call cb (receiver_of opts) [AValue VNull; AInstance _this]
          else
            try_catch
              (may_throw (r_table d (tableName m)) ;;;
               let key := get _this (idAttribute m) in
               let q :=
                 if softDelete m
                 then Update (tableName m) key (soft_delete_changes m d) true
                 else Delete (tableName m) key true in
               may_throw (r_write d q) ;;;
               set_previousAttributes (VObj (attributes _this)) ;;;
               emit (Run q opts) ;;;
               match connection_run d q opts with
               | RunThrows err => throw err
               | RunFails err => save_done cb opts (inl (CauseError err))
               | RunGives cursor =>
                   if not_strictly_zero (field cursor "errors") then
                     save_done cb opts
                       (inl (CauseValue (field cursor "first_error")))
                   else
                     (if softDelete m
                      then
                        a <- gets (fun s => attributes (self s)) ;;
                        set_attributes
                          (deepMixIn_value a (field cursor "new_val"))
                      else set_attributes ∅) ;;;
                     set_meta (VObj cursor) ;;;
                     _this <- gets self ;;
                     save_done cb opts (inr (_this, VObj cursor))
               end)
              (fun err =>
                 call cb (receiver_of opts)
                   [AError (UnhandledError (CauseError err))])
    | _ =>
        call cb NoReceiver
          [AError (IllegalArgumentError
                     (destroy_prefix ++ "options: Must be an object!")
                     (actual_expected (typeof options) "object"))]
    end.

(** A call passes the argument checks of [save] and [destroy] when,
    after the shift of [call_shape], [cb] is a function, [options] is an
    object, and [options.context] is falsy or an object.  The result is
    the options object and the callback the method goes on with. *)
Definition well_formed (options cb : value) : option (obj * value) :=
  match call_shape options cb with
  | (VObj opts, VFun f) =>
      if truthy (field opts "context") && negb (isObject (field opts "context"))
      then None
      else Some (opts, VFun f)
  | _ => None
  end.

(** The attribute mapping after lines 62-68 of save.js: a new instance
    takes [created] from the first call of [r.now()] and [updated] from
    the second; an instance that is not new takes [updated] from the
    only call. *)
Definition stamped (m : model) (d : env) (i : instance) : obj :=
  if timestamps m then
    if isNew m i
    then <["updated" := r_now d 1%nat]>
           (<["deleted" := VNull]> (<["created" := r_now d 0%nat]> (attributes i)))
    else <["updated" := r_now d 0%nat]> (attributes i)
  else attributes i.

(** The write [save] builds from a mapping [a] that is already stamped
    (lines 70-74). *)
Definition save_query (m : model) (a : obj) : query :=
  if nullish (field a (idAttribute m))
  then Insert (tableName m) a true
  else Update (tableName m) (field a (idAttribute m)) a true.

(** The write [destroy] builds. *)
Definition destroy_query (m : model) (d : env) (i : instance) : query :=
  if softDelete m
  then Update (tableName m) (get i (idAttribute m)) (soft_delete_changes m d) true
  else Delete (tableName m) (get i (idAttribute m)) true.

(** The document a write carries. *)
Definition payload (q : query) : obj :=
  match q with
  | Insert _ row _ => row
  | Update _ _ changes _ => changes
  | Delete _ _ _ => ∅
  end.

Definition is_run (e : event) : bool :=
  match e with Run _ _ => true | _ => false end.

Definition with_attributes (i : instance) (a : obj) : instance :=
  {| attributes := a; previousAttributes := previousAttributes i; meta := meta i |}.

Definition is_callback (e : event) : bool :=
  match e with Callback _ _ _ => true | _ => false end.

(** The calls of callbacks in a log, in order. *)
Definition callbacks (l : list event) : list event := List.filter is_callback l.

(** The downstream failures of one [save] of instance [i] with options
    [opts], each with the cause it starts from: the driver throws while
    the query is built ([r.table], or the write on the stamped
    attributes), the connection throws or reports an error, or the write
    result
    has a non-zero [errors] count, in which case the cause is
    [cursor.first_error], or ['insert failed'] when the result carries
    no (truthy) [first_error]. *)
Inductive save_failure (m : model) (d : env) (i : instance) (opts : obj) :
    cause -> Prop :=
| TableThrows (e : jserror) :
    r_table d (tableName m) = Some e ->
    save_failure m d i opts (CauseError e)
| WriteThrows (e : jserror) :
    r_table d (tableName m) = None ->
    r_write d (save_query m (stamped m d i)) = Some e ->
    save_failure m d i opts (CauseError e)
| ConnectionThrows (e : jserror) :
    r_table d (tableName m) = None ->
    r_write d (save_query m (stamped m d i)) = None ->
    connection_run d (save_query m (stamped m d i)) opts = RunThrows e ->
    save_failure m d i opts (CauseError e)
| ConnectionFails (e : jserror) :
    r_table d (tableName m) = None ->
    r_write d (save_query m (stamped m d i)) = None ->
    connection_run d (save_query m (stamped m d i)) opts = RunFails e ->
    save_failure m d i opts (CauseError e)
| EngineReports (cursor : obj) :
    r_table d (tableName m) = None ->
    r_write d (save_query m (stamped m d i)) = None ->
    connection_run d (save_query m (stamped m d i)) opts = RunGives cursor ->
    not_strictly_zero (field cursor "errors") = true ->
    truthy (field cursor "first_error") = true ->
    save_failure m d i opts (CauseValue (field cursor "first_error"))
| EngineReportsNoDetail (cursor : obj) :
    r_table d (tableName m) = None ->
    r_write d (save_query m (stamped m d i)) = None ->
    connection_run d (save_query m (stamped m d i)) opts = RunGives cursor ->
    not_strictly_zero (field cursor "errors") = true ->
    truthy (field cursor "first_error") = false ->
    save_failure m d i opts (CauseValue (VStr "insert failed")).

(** State [s] with one more event in its log and the instance
    untouched. *)
Definition logged (s : state) (e : event) : state :=
  {| self := self s; log := log s ++ [e] |}.

(** Calling a method on an instance with an empty log. *)
Definition on (i : instance) : state := {| self := i; log := [] |}.

End Model.

(** ** Scenarios of the unit tests *)

Module Scenario.
Import JS Model.
#[local] Open Scope string_scope.

(** The callback the tests pass. *)
Definition done : value := VFun "done".

(** A model type as the tests set it up on [instance.constructor]. *)
Definition Person (stamps soft : bool) : model :=
  {| tableName := "person"; timestamps := stamps; softDelete := soft;
     idAttribute := "id" |}.

(** [{ attributes: { name: 'John' } }]: never saved. *)
Definition john : instance :=
  {| attributes := {[ "name" := VStr "John" ]};
     previousAttributes := VUndefined;
     meta := VUndefined |}.

(** [{ attributes: { name: 'John', id: 2 } }]: a persisted row. *)
Definition john2 : instance :=
  {| attributes := <["id" := VNum 2]> {[ "name" := VStr "John" ]};
     previousAttributes := VUndefined;
     meta := VUndefined |}.

(** The stubbed driver ([now] returns 5, nothing throws) and a
    connection whose [run] answers with [outcome]. *)
Definition stub (outcome : run_outcome) : env :=
  {| r_now := fun _ => VNum 5;
     r_table := fun _ => None;
     r_write := fun _ => None;
     connection_run := fun _ _ => outcome |}.

(** A stubbed driver whose [now] is a clock that advances with each
    call: 5, then 6, and so on. *)
Definition ticking (outcome : run_outcome) : env :=
  {| r_now := fun n => VNum (5 + Z.of_nat n);
     r_table := fun _ => None;
     r_write := fun _ => None;
     connection_run := fun _ _ => outcome |}.

(** A driver whose [r.table] throws [e]. *)
Definition no_table (e : jserror) : env :=
  {| r_now := fun _ => VNum 5;
     r_table := fun _ => Some e;
     r_write := fun _ => None;
     connection_run := fun _ _ => RunFails e |}.

(** The write result of save.test.js, [timestampsIsNew]. *)
Definition inserted_row : obj :=
  <["deleted" := VNull]>
    (<["created" := VNum 5]>
       (<["updated" := VNum 5]> {[ "name" := VStr "John" ]})).

Definition insert_result : obj :=
  <["errors" := VNum 0]> {[ "new_val" := VObj inserted_row ]}.

(** A write result that reports a row-level error. *)
Definition failed_result : obj :=
  <["first_error" := VStr "Duplicate primary key"]> {[ "errors" := VNum 1 ]}.

(** The write result of the physical-delete test. *)
Definition delete_result : obj :=
  <["errors" := VNum 0]> {[ "old_val" := VObj (attributes john2) ]}.

End Scenario.

(** ** Sequences of calls on one Connection *)

Module ConnectionOps.
Import JS Eff Connection.
#[local] Open Scope eff_scope.
#[local] Open Scope string_scope.

(** [Connection#get]: [_get(key)] returns [_config[key]]. *)
Definition get (s : state) (key : string) : value := field (_config s) key.

(** The settings [createPool] hands to the pool library. *)
Definition pool_keys : list string :=
  [ "name"; "max"; "min"; "idleTimeoutMillis"; "log";
    "refreshIdle"; "reapIntervalMillis"; "priorityRange" ].

(** The arguments [_configure] goes on with after its first lines:
    falsy options become [{}], and a function in second position is the
    callback. *)
Definition configure_args (options strict cb : value) : value * value * value :=
  (js_or options (VObj ∅), (configure_shift strict cb).1, (configure_shift strict cb).2).

(** The arguments [run] goes on with after its first lines. *)
Definition run_args (options cb : value) : value * value :=
  run_shift (js_or options (VObj ∅)) cb.

(** The requested drain at position [n] (0 is the oldest) finishes: its
    continuation runs; nothing happens when there is no such drain. *)
Definition drain_finishes (n : nat) : M state unit :=
  d <- gets draining ;;
  match d !! n with
  | None => ret tt
  | Some (old, cb) =>
      modify (fun s =>
        {| _config := _config s; _pool := _pool s; pools_made := pools_made s;
           draining := delete n (draining s); checked_out := checked_out s;
           log := log s |}) ;;;
      emit (DestroyAllNow old) ;;;
      when (truthy cb && isFunction cb) (call cb [])
  end.

(** One call of [Connection#run], with what pool and query answer. *)
Record run_call : Type := {
  rc_world : world;
  rc_query : value;
  rc_options : value;
  rc_cb : value
}.

(** What can happen to a Connection after its construction: a call of
    [configure], a call of [run], or a requested drain finishing. *)
Inductive op : Type :=
| OpConfigure (options strict cb : value)
| OpRun (c : run_call)
| OpDrained (n : nat).

(** The state after one operation (an exception thrown by the call is
    the caller's; the state is the one it was thrown in). *)
Definition step (s : state) (o : op) : state :=
  match o with
  | OpConfigure options strict cb => (configure options strict cb s).2
  | OpRun c => (run (rc_world c) (rc_query c) (rc_options c) (rc_cb c) s).2
  | OpDrained n => (drain_finishes n s).2
  end.

Definition exec (ops : list op) (s : state) : state := fold_left step ops s.

(** Every pool, in use or draining, was made by this Connection, and no
    draining pool is the pool in use. *)
Definition pools_apart (s : state) : Prop :=
  (forall p, _pool s = Some p -> (pool_id p < pools_made s)%nat) /\
  (forall p cb, In (p, cb) (draining s) ->
     (pool_id p < pools_made s)%nat /\
     (forall q, _pool s = Some q -> pool_id p <> pool_id q)).

(** No query of the call throws. *)
Definition answers (c : run_call) : Prop :=
  forall q o h e, on_query (rc_world c) q o h <> QueryThrows e.

(** State [s] with [held] as the checked-out handles and [new] appended
    to the log. *)
Definition after (s : state) (held : list handle) (new : list event) : state :=
  {| _config := _config s; _pool := _pool s; pools_made := pools_made s;
     draining := draining s; checked_out := held;
     log := (log s ++ new)%list |}.

(** Pool and query report what goes wrong through [next]: neither
    throws. *)
Definition reports (w : world) : Prop :=
  (forall e, on_acquire w <> AcquireThrows e) /\
  (forall q o h e, on_query w q o h <> QueryThrows e).

(** The arguments the callback of [run] is called with, by what pool and
    query pass to [next]: [(null, result)] when a handle was handed out
    and the query gave a result, the one argument [UnhandledError(err)]
    when either reported [err]; none are promised when either throws. *)
Definition delivered (w : world) (query : value) (opts : obj) :
    option (list arg) :=
  match on_acquire w with
  | AcquireThrows _ => None
  | AcquireFails e => Some [AError (UnhandledError (CauseError e))]
  | AcquireGives h =>
      match on_query w query opts h with
      | QueryThrows _ => None
      | QueryFails e => Some [AError (UnhandledError (CauseError e))]
      | QueryGives result => Some [AValue VNull; AValue result]
      end
  end.

(** Every call of [run] among [ops] has queries that do not throw. *)
Definition all_answer (ops : list op) : Prop :=
  forall c, In (OpRun c) ops -> answers c.

End ConnectionOps.

(** ** Vocabulary for repeated saves *)

Module ModelOps.
Import JS Model.
#[local] Open Scope string_scope.

(** The primary key of the model type is not one of the fields that
    [save] stamps, or the model type has no timestamps: stamping then
    leaves the primary key alone. *)
Definition key_not_stamped (m : model) : Prop :=
  timestamps m = false \/
  (idAttribute m <> "created" /\ idAttribute m <> "updated" /\
   idAttribute m <> "deleted").

(** The write [save] issues for instance [i] when stamping leaves the
    primary key alone: an insert of the stamped attributes for a new
    instance, else an update of the row with the instance's primary key. *)
Definition expected_write (m : model) (d : env) (i : instance) : query :=
  if isNew m i
  then Insert (tableName m) (stamped m d i) true
  else Update (tableName m) (get i (idAttribute m)) (stamped m d i) true.

(** The connection reports what goes wrong through [next]: its [run]
    does not throw. *)
Definition connection_reports (d : env) : Prop :=
  forall q o e, connection_run d q o <> RunThrows e.

End ModelOps.

(** * Properties *)

(** ** Merging *)

Module MixFacts.
Import JS.

(** What [deepMixIn] leaves under a key: the target's value when the
    source has none; the recursively mixed object when both hold plain
    objects; the source's value otherwise. *)
Lemma deepMixIn_lookup (target source : obj) (k : string) :
  deepMixIn target source !! k =
    match source !! k with
    | None => target !! k
    | Some (VObj src) =>
        match target !! k with
        | Some (VObj tgt) => Some (VObj (deepMixIn tgt src))
        | _ => Some (VObj src)
        end
    | Some v => Some v
    end.
Proof.
  unfold deepMixIn; simpl.
  rewrite lookup_merge, lookup_fmap.
  destruct (source !! k) as [v|]; simpl.
  - destruct v; simpl; destruct (target !! k) as [[]|]; reflexivity.
  - destruct (target !! k); reflexivity.
Qed.

(** A key the source does not have keeps the target's value. *)
Lemma deepMixIn_lookup_absent (target source : obj) (k : string) :
  source !! k = None -> deepMixIn target source !! k = target !! k.
Proof. intros H. rewrite deepMixIn_lookup, H. reflexivity. Qed.

(** A source value that is not a plain object overwrites. *)
Lemma deepMixIn_lookup_overwrite (target source : obj) (k : string) (v : value) :
  source !! k = Some v -> isObject v = false ->
  deepMixIn target source !! k = Some v.
Proof.
  intros H Hv. rewrite deepMixIn_lookup, H.
  destruct v; try reflexivity; discriminate.
Qed.

(** Every key of the source is a key of the result. *)
Lemma deepMixIn_lookup_present (target source : obj) (k : string) (v : value) :
  source !! k = Some v -> is_Some (deepMixIn target source !! k).
Proof.
  intros H. rewrite deepMixIn_lookup, H.
  destruct v; eauto. destruct (target !! k) as [[]|]; eauto.
Qed.

(** No key of the target is lost. *)
Lemma deepMixIn_keeps_keys (target source : obj) (k : string) :
  is_Some (target !! k) -> is_Some (deepMixIn target source !! k).
Proof.
  intros [x Hx]. rewrite deepMixIn_lookup, Hx.
  destruct (source !! k) as [v|]; eauto.
  destruct v; eauto. destruct x; eauto.
Qed.

(** A non-null source value leaves a non-null value. *)
Lemma deepMixIn_lookup_non_null (target source : obj) (k : string) (v : value) :
  source !! k = Some v -> nullish v = false ->
  exists v', deepMixIn target source !! k = Some v' /\ nullish v' = false.
Proof.
  intros H Hv. rewrite deepMixIn_lookup, H.
  destruct v; try discriminate; eauto.
  destruct (target !! k) as [[]|]; eauto.
Qed.

Lemma vsize_field (fields : obj) (k : string) (x : value) :
  fields !! k = Some x -> (vsize x < vsize (VObj fields))%nat.
Proof.
  intros H. simpl.
  rewrite <- (insert_delete_id fields k x H).
  rewrite map_fold_insert_L.
  - lia.
  - intros; lia.
  - apply lookup_delete_eq.
Qed.

(** Mixing an object into itself changes nothing. *)
Lemma deepMixIn_idempotent (a : obj) : deepMixIn a a = a.
Proof.
  remember (vsize (VObj a)) as n eqn:Hn.
  assert (Hle : (vsize (VObj a) <= n)%nat) by lia. clear Hn.
  revert a Hle. induction n as [|n IH]; intros a Hle.
  - simpl in Hle. lia.
  - apply map_eq. intros k. rewrite deepMixIn_lookup.
    destruct (a !! k) as [x|] eqn:Hk; [|reflexivity].
    destruct x; try reflexivity.
    rewrite IH; [reflexivity|].
    apply vsize_field in Hk. lia.
Qed.

(** A source that agrees with the target on a key leaves it alone. *)
Lemma deepMixIn_lookup_agree (target source : obj) (k : string) :
  source !! k = target !! k -> deepMixIn target source !! k = target !! k.
Proof.
  intros H. rewrite deepMixIn_lookup, H.
  destruct (target !! k) as [x|]; [|reflexivity].
  destruct x; try reflexivity.
  rewrite deepMixIn_idempotent. reflexivity.
Qed.

Lemma deepMixIn_value_obj (target source : obj) :
  deepMixIn_value target (VObj source) = deepMixIn target source.
Proof. reflexivity. Qed.

(** An array or a string as the source: its elements, or characters,
    land under their indices. *)
Example deepMixIn_array_source :
  deepMixIn_value {[ "name" := VStr "John" ]} (VArr [VNum 1; VNum 2])
  = <["1" := VNum 2]> (<["0" := VNum 1]> {[ "name" := VStr "John" ]}).
Proof. vm_compute. reflexivity. Qed.

Example deepMixIn_string_source :
  deepMixIn_value {[ "name" := VStr "John" ]} (VStr "ab")
  = <["1" := VStr "b"]> (<["0" := VStr "a"]> {[ "name" := VStr "John" ]}).
Proof. vm_compute. reflexivity. Qed.

(** Copying properties onto a target never removes one of its keys,
    whatever the own properties of the source are. *)
Lemma copyProp_keeps_keys (target : obj)
    (props : gmap string (value * (obj -> obj))) (k : string) :
  is_Some (target !! k) -> is_Some (merge copyProp target props !! k).
Proof.
  intros [x Hx]. rewrite lookup_merge, Hx.
  destruct (props !! k) as [[v rec]|]; cbn; [|eauto].
  destruct v; eauto. destruct x; eauto.
Qed.

Lemma mixer_keeps_keys (source : value) (target : obj) (k : string) :
  is_Some (target !! k) -> is_Some (mixer source target !! k).
Proof.
  intros Hk. destruct source; cbn [mixer]; try exact Hk;
    apply copyProp_keeps_keys; exact Hk.
Qed.

End MixFacts.

(** ** save and destroy *)

Module ModelFacts.
Import JS Eff Model MixFacts.
#[local] Open Scope string_scope.

(** Unfolds the effect combinators, then reduces the state accessors
    where they meet a record. *)
Ltac run_eff :=
  repeat
    (progress
       (cbv beta iota zeta delta
          [ Eff.bind Eff.ret Eff.throw Eff.try_catch Eff.gets Eff.modify
            Eff.may_throw Eff.when emit call set_attribute set_attributes
            set_meta set_previousAttributes save_done on with_attributes
            isNew get ];
        cbn [self log attributes meta previousAttributes fst snd app negb])).

Lemma well_formed_inv (options cb : value) (opts : obj) (cb' : value) :
  well_formed options cb = Some (opts, cb') ->
  call_shape options cb = (VObj opts, cb') /\
  isFunction cb' = true /\
  truthy (field opts "context") && negb (isObject (field opts "context")) = false.
Proof.
  unfold well_formed. destruct (call_shape options cb) as [o c].
  destruct o; try discriminate. destruct c; try discriminate.
  destruct (truthy (field fields "context") && negb (isObject (field fields "context")))
    eqn:Hctx; [discriminate|].
  intros [= <- <-]. auto.
Qed.

(** The whole of [save] on a well-formed call, as one case analysis on
    what the collaborators do. *)
Lemma save_run (m : model) (d : env) (options cb : value) (i : instance)
    (opts : obj) (cb' : value) :
  well_formed options cb = Some (opts, cb') ->
  save m d options cb (on i) =
    match r_table d (tableName m) with
    | Some e =>
        (Normal tt,
         {| self := i;
            log := [ Callback cb' (receiver_of opts)
                       [AError (UnhandledError (CauseError e))] ] |})
    | None =>
        let a := stamped m d i in
        let q := save_query m a in
        match r_write d q with
        | Some e =>
            (Normal tt,
             {| self := with_attributes i a;
                log := [ Callback cb' (receiver_of opts)
                           [AError (UnhandledError (CauseError e))] ] |})
        | None =>
            match connection_run d q opts with
            | RunThrows e | RunFails e =>
                (Normal tt,
                 {| self := with_attributes i a;
                    log := [ Run q opts;
                             Callback cb' (receiver_of opts)
                               [AError (UnhandledError (CauseError e))] ] |})
            | RunGives cursor =>
                if not_strictly_zero (field cursor "errors") then
                  (Normal tt,
                   {| self := with_attributes i a;
                      log := [ Run q opts;
                               Callback cb' (receiver_of opts)
                                 [AError
                                    (UnhandledError
                                       (CauseValue
                                          (js_or (field cursor "first_error")
                                             (VStr "insert failed"))))] ] |})
                else
                  let i' := with_attributes i
                              (deepMixIn_value a (field cursor "new_val")) in
                  (Normal tt,
                   {| self := i';
                      log := [ Run q opts;
                               Callback cb' (receiver_of opts)
                                 [AValue VNull; AInstance i';
                                  AValue (VObj cursor)] ] |})
            end
        end
    end.
Proof.
  intros Hwf.
  apply well_formed_inv in Hwf as (Hshape & Hfun & Hctx).
  unfold save. rewrite Hshape, Hfun, Hctx.
  unfold stamped, save_query, isNew.
  run_eff.
  destruct (r_table d (tableName m)) as [e|]; [reflexivity|].
  destruct (timestamps m);
    [destruct (nullish (field (attributes i) (idAttribute m))) eqn:Hnew|].
  all: run_eff; rewrite ?Hnew; run_eff.
  all: match goal with |- context [r_write ?d' ?q] => destruct (r_write d' q) end;
    [destruct i; reflexivity|].
  all: run_eff.
  all: match goal with
       | |- context [connection_run ?d' ?q ?o] =>
           destruct (connection_run d' q o) as [e|e|cursor]
       end; [destruct i; reflexivity|destruct i; reflexivity|].
  all: destruct (not_strictly_zero (field cursor "errors")); destruct i; reflexivity.
Qed.

(** The whole of [destroy] on a well-formed call. *)
Lemma destroy_run (m : model) (d : env) (options cb : value) (i : instance)
    (opts : obj) (cb' : value) :
  well_formed options cb = Some (opts, cb') ->
  destroy m d options cb (on i) =
    if isNew m i then
      (Normal tt,
       {| self := i;
          log := [ Callback cb' (receiver_of opts) [AValue VNull; AInstance i] ] |})
    else
      match r_table d (tableName m) with
      | Some e =>
          (Normal tt,
           {| self := i;
              log := [ Callback cb' (receiver_of opts)
                         [AError (UnhandledError (CauseError e))] ] |})
      | None =>
          let q := destroy_query m d i in
          let kept := {| attributes := attributes i;
                         previousAttributes := VObj (attributes i);
                         meta := meta i |} in
          match r_write d q with
          | Some e =>
              (Normal tt,
               {| self := i;
                  log := [ Callback cb' (receiver_of opts)
                             [AError (UnhandledError (CauseError e))] ] |})
          | None =>
              match connection_run d q opts with
              | RunThrows e | RunFails e =>
                  (Normal tt,
                   {| self := kept;
                      log := [ Run q opts;
                               Callback cb' (receiver_of opts)
                                 [AError (UnhandledError (CauseError e))] ] |})
              | RunGives cursor =>
                  if not_strictly_zero (field cursor "errors") then
                    (Normal tt,
                     {| self := kept;
                        log := [ Run q opts;
                                 Callback cb' (receiver_of opts)
                                   [AError
                                      (UnhandledError
                                         (CauseValue (field cursor "first_error")))] ] |})
                  else
                    let i' :=
                      {| attributes :=
                           if softDelete m
                           then deepMixIn_value (attributes i) (field cursor "new_val")
                           else ∅;
                         previousAttributes := VObj (attributes i);
                         meta := VObj cursor |} in
                    (Normal tt,
                     {| self := i';
                        log := [ Run q opts;
                                 Callback cb' (receiver_of opts)
                                   [AValue VNull; AInstance i';
                                    AValue (VObj cursor)] ] |})
              end
          end
      end.
Proof.
  intros Hwf.
  apply well_formed_inv in Hwf as (Hshape & Hfun & Hctx).
  unfold destroy. rewrite Hshape, Hfun, Hctx.
  unfold destroy_query.
  run_eff.
  destruct (nullish (field (attributes i) (idAttribute m))); [destruct i; reflexivity|].
  run_eff.
  destruct (r_table d (tableName m)) as [e|]; [destruct i; reflexivity|].
  destruct (softDelete m).
  all: match goal with |- context [r_write ?d' ?q] => destruct (r_write d' q) end;
    [destruct i; reflexivity|].
  all: run_eff.
  all: match goal with
       | |- context [connection_run ?d' ?q ?o] =>
           destruct (connection_run d' q o) as [e|e|cursor]
       end; [destruct i; reflexivity|destruct i; reflexivity|].
  all: destruct (not_strictly_zero (field cursor "errors")); destruct i; reflexivity.
Qed.

Lemma payload_save_query (m : model) (a : obj) : payload (save_query m a) = a.
Proof. unfold save_query. destruct (nullish (field a (idAttribute m))); reflexivity. Qed.

(** What lines 62-68 leave in the attribute mapping when [timestamps] is
    on. *)
Lemma stamped_lookup (m : model) (d : env) (i : instance) :
  timestamps m = true ->
  if isNew m i then
    stamped m d i !! "created" = Some (r_now d 0%nat) /\
    stamped m d i !! "deleted" = Some VNull /\
    stamped m d i !! "updated" = Some (r_now d 1%nat) /\
    (forall k, k <> "created" -> k <> "updated" -> k <> "deleted" ->
               stamped m d i !! k = attributes i !! k)
  else
    stamped m d i !! "updated" = Some (r_now d 0%nat) /\
    stamped m d i !! "created" = attributes i !! "created" /\
    (forall k, k <> "updated" -> stamped m d i !! k = attributes i !! k).
Proof.
  intros Hts. unfold stamped. rewrite Hts.
  destruct (isNew m i).
  - repeat split.
    + rewrite lookup_insert_ne by discriminate.
      rewrite lookup_insert_ne by discriminate.
      apply lookup_insert_eq.
    + rewrite lookup_insert_ne by discriminate. apply lookup_insert_eq.
    + apply lookup_insert_eq.
    + intros k Hc Hu Hd.
      rewrite !lookup_insert_ne by congruence. reflexivity.
  - repeat split.
    + apply lookup_insert_eq.
    + apply lookup_insert_ne. discriminate.
    + intros k Hu. apply lookup_insert_ne. congruence.
Qed.

(** The writes in the log of a well-formed [save] all carry the stamped
    attributes. *)
Lemma save_writes_stamped (m : model) (d : env) (options cb : value)
    (i : instance) (opts : obj) (cb' : value) (q : query) (o : obj) :
  well_formed options cb = Some (opts, cb') ->
  In (Run q o) (log (save m d options cb (on i)).2) ->
  payload q = stamped m d i.
Proof.
  intros Hwf. rewrite (save_run _ _ _ _ _ _ _ Hwf).
  destruct (r_table d (tableName m)) as [e|].
  { simpl. intros [H|[]]. discriminate H. }
  cbv zeta.
  destruct (r_write d (save_query m (stamped m d i))) as [e|].
  { simpl. intros [H|[]]. discriminate H. }
  destruct (connection_run d (save_query m (stamped m d i)) opts) as [e|e|cursor];
    [| |destruct (not_strictly_zero (field cursor "errors"))].
  all: simpl; intros [H|[H|[]]]; try discriminate H.
  all: injection H as <- _; apply payload_save_query.
Qed.

(** C1. A successful save (the write comes back with a zero error
    count) merges the returned row [new_val] into the attributes and
    calls the callback with [(null, instance, meta)], [meta] being the
    raw write result; the [meta] field of the instance itself is left
    as it was, where the claim has it replaced by the write result. *)
Theorem save_success_keeps_meta (m : model) (d : env) (options cb : value)
    (i : instance) (opts : obj) (cb' : value) (cursor : obj) :
  well_formed options cb = Some (opts, cb') ->
  r_table d (tableName m) = None ->
  r_write d (save_query m (stamped m d i)) = None ->
  connection_run d (save_query m (stamped m d i)) opts = RunGives cursor ->
  field cursor "errors" = VNum 0 ->
  let r := save m d options cb (on i) in
  r.1 = Normal tt /\
  attributes (self r.2) =
    deepMixIn_value (stamped m d i) (field cursor "new_val") /\
  meta (self r.2) = meta i /\
  log r.2 = [ Run (save_query m (stamped m d i)) opts;
              Callback cb' (receiver_of opts)
                [AValue VNull; AInstance (self r.2); AValue (VObj cursor)] ].
Proof.
  intros Hwf Ht Hw Hrun Herr r. subst r.
  rewrite (save_run _ _ _ _ _ _ _ Hwf), Ht. cbv zeta.
  rewrite Hw, Hrun, Herr. simpl. repeat split.
Qed.

(** The stubbed scenario of save.test.js ([timestampsIsNew]): the
    attributes end up as the returned row, the callback receives the
    write result, and [instance.meta] is still undefined. *)
Lemma save_success_keeps_meta_witness :
  let r := save (Scenario.Person true false)
             (Scenario.stub (RunGives Scenario.insert_result))
             Scenario.done VUndefined (on Scenario.john) in
  r.1 = Normal tt /\
  attributes (self r.2) = Scenario.inserted_row /\
  meta (self r.2) = VUndefined /\
  log r.2 =
    [ Run (Insert "person" Scenario.inserted_row true) ∅;
      Callback Scenario.done OnInstance
        [AValue VNull; AInstance (self r.2);
         AValue (VObj Scenario.insert_result)] ].
Proof.
  exact (save_success_keeps_meta (Scenario.Person true false)
           (Scenario.stub (RunGives Scenario.insert_result))
           Scenario.done VUndefined Scenario.john ∅ Scenario.done
           Scenario.insert_result eq_refl eq_refl eq_refl eq_refl eq_refl).
Defined.

(** C2, where it fails.  Nothing in [save] makes [created] and
    [updated] equal: each is the answer of a call of [r.now()] of its
    own, so a driver whose [now] advances between the two calls leaves
    [created] at 5 and [updated] at 6, in the row that is written and
    on the instance.  And when [r.table] throws, which happens before
    the stamping, a new instance gets no [created], [updated] or
    [deleted] at all, and nothing is written. *)
Lemma save_stamps_apart_or_not_at_all :
  (let r := save (Scenario.Person true false)
              (Scenario.ticking (RunFails (DriverError "connection lost")))
              Scenario.done VUndefined (on Scenario.john) in
   log r.2 =
     [ Run (Insert "person"
              (<["updated" := VNum 6]>
                 (<["deleted" := VNull]>
                    (<["created" := VNum 5]> {[ "name" := VStr "John" ]})))
              true) ∅;
       Callback Scenario.done OnInstance
         [AError (UnhandledError
                    (CauseError (DriverError "connection lost")))] ] /\
   attributes (self r.2) !! "created" = Some (VNum 5) /\
   attributes (self r.2) !! "updated" = Some (VNum 6) /\
   attributes (self r.2) !! "created" <> attributes (self r.2) !! "updated") /\
  (let r := save (Scenario.Person true false)
              (Scenario.no_table (DriverError "no such table"))
              Scenario.done VUndefined (on Scenario.john) in
   attributes (self r.2) = {[ "name" := VStr "John" ]} /\
   attributes (self r.2) !! "created" = None /\
   attributes (self r.2) !! "updated" = None /\
   attributes (self r.2) !! "deleted" = None /\
   List.filter is_run (log r.2) = []).
Proof.
  split; cbv zeta.
  - repeat split; try (vm_compute; reflexivity).
    vm_compute. discriminate.
  - repeat split; vm_compute; reflexivity.
Qed.

(** C2, amended.  On a well-formed call of [save] for a model type with
    [timestamps], once [r.table] has not thrown, the attribute mapping
    of the instance is stamped before the write is built: for a new
    instance [created] is set to the answer of a first call of
    [r.now()], [deleted] to null and [updated] to the answer of a second
    call of [r.now()] (so the two are equal whenever the two calls
    answer alike); for an instance that is not new only [updated] is
    set, to [r.now()], and [created] and every other attribute are as
    they were.  The stamped mapping [a] is what every write of the call
    carries, and it is what the instance holds when the call is over:
    as it is when the write was not built or did not succeed, with the
    returned row merged into it when the write succeeded. *)
Theorem save_stamps_timestamps (m : model) (d : env) (options cb : value)
    (i : instance) (opts : obj) (cb' : value) :
  well_formed options cb = Some (opts, cb') ->
  timestamps m = true ->
  r_table d (tableName m) = None ->
  let r := save m d options cb (on i) in
  exists a : obj,
    (if isNew m i then
       a !! "created" = Some (r_now d 0%nat) /\
       a !! "deleted" = Some VNull /\
       a !! "updated" = Some (r_now d 1%nat) /\
       (r_now d 0%nat = r_now d 1%nat -> a !! "created" = a !! "updated") /\
       (forall k, k <> "created" -> k <> "updated" -> k <> "deleted" ->
                  a !! k = attributes i !! k)
     else
       a !! "updated" = Some (r_now d 0%nat) /\
       a !! "created" = attributes i !! "created" /\
       (forall k, k <> "updated" -> a !! k = attributes i !! k)) /\
    (forall q o, In (Run q o) (log r.2) -> payload q = a) /\
    attributes (self r.2) =
      match r_write d (save_query m a),
            connection_run d (save_query m a) opts with
      | None, RunGives cursor =>
          if not_strictly_zero (field cursor "errors") then a
          else deepMixIn_value a (field cursor "new_val")
      | _, _ => a
      end.
Proof.
  intros Hwf Hts Ht r. exists (stamped m d i). split; [|split].
  - pose proof (stamped_lookup m d i Hts) as H.
    destruct (isNew m i).
    + destruct H as (Hc & Hd & Hu & Hk). repeat split; try assumption.
      intros Heq. rewrite Hc, Hu, Heq. reflexivity.
    + exact H.
  - intros q o Hin. subst r.
    exact (save_writes_stamped _ _ _ _ _ _ _ _ _ Hwf Hin).
  - subst r. rewrite (save_run _ _ _ _ _ _ _ Hwf), Ht. cbv zeta.
    destruct (r_write d (save_query m (stamped m d i))) as [e|];
      [reflexivity|].
    destruct (connection_run d (save_query m (stamped m d i)) opts)
      as [e|e|cursor]; [reflexivity|reflexivity|].
    destruct (not_strictly_zero (field cursor "errors")); reflexivity.
Qed.

(** The stubbed scenario of save.test.js ([timestampsIsNew]), where
    [now] answers 5 each time. *)
Lemma save_stamps_timestamps_witness :
  let r := save (Scenario.Person true false)
             (Scenario.stub (RunGives Scenario.insert_result))
             Scenario.done VUndefined (on Scenario.john) in
  exists a : obj,
    (a !! "created" = Some (VNum 5) /\
     a !! "deleted" = Some VNull /\
     a !! "updated" = Some (VNum 5) /\
     (VNum 5 = VNum 5 -> a !! "created" = a !! "updated") /\
     (forall k, k <> "created" -> k <> "updated" -> k <> "deleted" ->
                a !! k = attributes Scenario.john !! k)) /\
    (forall q o, In (Run q o) (log r.2) -> payload q = a) /\
    attributes (self r.2) = deepMixIn_value a (VObj Scenario.inserted_row).
Proof.
  exact (save_stamps_timestamps (Scenario.Person true false)
           (Scenario.stub (RunGives Scenario.insert_result))
           Scenario.done VUndefined Scenario.john ∅ Scenario.done
           eq_refl eq_refl eq_refl).
Defined.

(** C7. On a well-formed call, every downstream failure of [save] that
    is reported (the driver throws while the query is built, the
    connection reports an error, or the write result has a non-zero
    error count) ends in exactly one call of the callback, with the
    single argument [UnhandledError(cause)]; for a row-level error
    reported by the engine the cause is the result's [first_error].  A
    [connection.run] that throws instead of reporting is left out. *)
Theorem save_failure_wrapped (m : model) (d : env) (options cb : value)
    (i : instance) (opts : obj) (cb' : value) (c : cause) :
  well_formed options cb = Some (opts, cb') ->
  save_failure m d i opts c ->
  (forall e,
     connection_run d (save_query m (stamped m d i)) opts <> RunThrows e) ->
  let r := save m d options cb (on i) in
  r.1 = Normal tt /\
  callbacks (log r.2) =
    [ Callback cb' (receiver_of opts) [AError (UnhandledError c)] ].
Proof.
  intros Hwf Hf Hreports r. subst r.
  rewrite (save_run _ _ _ _ _ _ _ Hwf).
  destruct Hf as [e Ht | e Ht Hw | e Ht Hw Hrun | e Ht Hw Hrun
                 | cursor Ht Hw Hrun Herr Hfirst
                 | cursor Ht Hw Hrun Herr Hfirst].
  3: { destruct (Hreports e Hrun). }
  all: rewrite Ht; cbv zeta; try rewrite Hw; try rewrite Hrun; try rewrite Herr;
    unfold js_or; try rewrite Hfirst; simpl; split; reflexivity.
Qed.

Lemma save_failure_wrapped_witness :
  let r := save (Scenario.Person true false)
             (Scenario.stub (RunGives Scenario.failed_result))
             Scenario.done VUndefined (on Scenario.john) in
  r.1 = Normal tt /\
  callbacks (log r.2) =
    [ Callback Scenario.done OnInstance
        [AError (UnhandledError (CauseValue (VStr "Duplicate primary key")))] ].
Proof.
  refine (save_failure_wrapped (Scenario.Person true false)
            (Scenario.stub (RunGives Scenario.failed_result))
            Scenario.done VUndefined Scenario.john ∅ Scenario.done _
            eq_refl
            (EngineReports (Scenario.Person true false)
               (Scenario.stub (RunGives Scenario.failed_result))
               Scenario.john ∅ Scenario.failed_result
               eq_refl eq_refl eq_refl eq_refl eq_refl) _).
  intros e H. discriminate H.
Defined.

(** C8. A call of [save] or [destroy] whose first argument is not the
    callback and whose callback is not a function, or whose options are
    not an object, is answered with an [IllegalArgumentError]: thrown
    when the callback is not a function, handed to the callback
    otherwise.  Either way nothing else happens: the instance is
    untouched and no query is run. *)
Theorem malformed_call_rejected (m : model) (d : env) (options cb : value)
    (s : state) :
  isFunction options = false ->
  isFunction cb = false \/ isObject options = false ->
  (exists e, is_IllegalArgumentError e = true /\
     save m d options cb s =
       if isFunction cb
       then (Normal tt, logged s (Callback cb NoReceiver [AError e]))
       else (Throw e, s)) /\
  (exists e, is_IllegalArgumentError e = true /\
     destroy m d options cb s =
       if isFunction cb
       then (Normal tt, logged s (Callback cb NoReceiver [AError e]))
       else (Throw e, s)).
Proof.
  intros Hopt H.
  unfold save, destroy, call_shape. rewrite Hopt.
  destruct (isFunction cb) eqn:Hcb; simpl negb; cbv iota.
  - destruct H as [H|H]; [discriminate|].
    destruct options; try discriminate; split; eexists; split;
      try reflexivity; reflexivity.
  - split; eexists; split; try reflexivity; reflexivity.
Qed.

Lemma malformed_call_rejected_witness :
  (exists e, is_IllegalArgumentError e = true /\
     save (Scenario.Person true false)
       (Scenario.stub (RunGives Scenario.insert_result))
       (VNum 5) Scenario.done (on Scenario.john) =
       (Normal tt,
        logged (on Scenario.john)
          (Callback Scenario.done NoReceiver [AError e]))) /\
  (exists e, is_IllegalArgumentError e = true /\
     destroy (Scenario.Person true false)
       (Scenario.stub (RunGives Scenario.insert_result))
       (VNum 5) Scenario.done (on Scenario.john) =
       (Normal tt,
        logged (on Scenario.john)
          (Callback Scenario.done NoReceiver [AError e]))).
Proof.
  exact (malformed_call_rejected (Scenario.Person true false)
           (Scenario.stub (RunGives Scenario.insert_result))
           (VNum 5) Scenario.done (on Scenario.john)
           eq_refl (or_intror eq_refl)).
Defined.

(** C5. [destroy] on a new instance succeeds at once: the callback
    is called with no error and the instance, no query is run, and the
    attributes are what they were. *)
Theorem destroy_new_is_noop (m : model) (d : env) (options cb : value)
    (i : instance) (opts : obj) (cb' : value) :
  well_formed options cb = Some (opts, cb') ->
  isNew m i = true ->
  let r := destroy m d options cb (on i) in
  r.1 = Normal tt /\
  log r.2 = [ Callback cb' (receiver_of opts) [AValue VNull; AInstance i] ] /\
  List.filter is_run (log r.2) = [] /\
  self r.2 = i /\
  attributes (self r.2) = attributes i.
Proof.
  intros Hwf Hnew r. subst r.
  rewrite (destroy_run _ _ _ _ _ _ _ Hwf), Hnew. simpl. repeat split.
Qed.

Lemma destroy_new_is_noop_witness :
  let r := destroy (Scenario.Person false false)
             (Scenario.stub (RunGives Scenario.delete_result))
             Scenario.done VUndefined (on Scenario.john) in
  r.1 = Normal tt /\
  log r.2 = [ Callback Scenario.done OnInstance
                [AValue VNull; AInstance Scenario.john] ] /\
  List.filter is_run (log r.2) = [] /\
  self r.2 = Scenario.john /\
  attributes (self r.2) = {[ "name" := VStr "John" ]}.
Proof.
  exact (destroy_new_is_noop (Scenario.Person false false)
           (Scenario.stub (RunGives Scenario.delete_result))
           Scenario.done VUndefined Scenario.john ∅ Scenario.done
           eq_refl eq_refl).
Defined.

(** The scenarios of save.test.js, evaluated. *)
Example save_normal_scenario :
  attributes
    (self (save (Scenario.Person false false)
             (Scenario.stub
                (RunGives
                   (<["errors" := VNum 0]>
                      {[ "new_val" := VObj {[ "name" := VStr "John" ]} ]})))
             Scenario.done VUndefined (on Scenario.john)).2)
  = {[ "name" := VStr "John" ]}.
Proof. vm_compute. reflexivity. Qed.

Example save_timestamps_scenario :
  attributes
    (self (save (Scenario.Person true false)
             (Scenario.stub (RunGives Scenario.insert_result))
             Scenario.done VUndefined (on Scenario.john)).2)
  = <["deleted" := VNull]>
      (<["created" := VNum 5]>
         (<["updated" := VNum 5]> {[ "name" := VStr "John" ]})).
Proof. vm_compute. reflexivity. Qed.

End ModelFacts.

(** ** Connection *)

Module ConnectionFacts.
Import JS Eff Connection.
#[local] Open Scope list_scope.

Ltac run_conn :=
  repeat
    (progress
       (cbv beta iota zeta delta
          [ Eff.bind Eff.ret Eff.throw Eff.try_catch Eff.gets Eff.modify
            Eff.may_throw Eff.when emit call createPool set_config set_pool
            drain checkout release finish logged ];
        cbn [_config _pool pools_made draining checked_out log fst snd negb])).

Lemma remove_first_head (h : handle) (l : list handle) :
  remove_first h (h :: l) = l.
Proof. simpl. rewrite Nat.eqb_refl. reflexivity. Qed.

(** Whenever [query.run] answers through its callback, with an error or
    with a result, the handle it was given is back in the pool before the
    callback of [run] is called; and a call that acquires no handle (the
    acquisition fails or throws, or the call is refused) releases none.
    Either way no more handles are checked out afterwards than before. *)
Lemma run_releases_before_callback (w : world) (query options cb : value)
    (s : state) :
  (forall q o h e, on_query w q o h <> QueryThrows e) ->
  let s' := (run w query options cb s).2 in
  checked_out s' = checked_out s /\
  exists new,
    log s' = log s ++ new /\
    (forall h, In (Acquired h) new ->
       exists pre cb' args,
         new = pre ++ [Release h; Callback cb' args] /\
         List.filter is_callback pre = []) /\
    ((forall h, ~ In (Acquired h) new) -> forall h, ~ In (Release h) new).
Proof.
  intros Hreports. unfold run.
  destruct (run_shift (js_or options (VObj ∅)) cb) as [o c].
  destruct (isFunction c); cbn [negb].
  2:{ run_conn. split; [reflexivity|]. exists []. rewrite app_nil_r.
      split; [reflexivity|]. split; [intros h []|intros _ h []]. }
  destruct (truthy query); cbn [negb].
  2:{ run_conn. split; [reflexivity|]. eexists. split; [reflexivity|].
      split.
      - intros h [H|[]]. discriminate.
      - intros _ h [H|[]]. discriminate. }
  destruct o.
  all: try (run_conn; split; [reflexivity|]; eexists; (split; [reflexivity|]);
            split; [intros h [H|[]]; discriminate
                   |intros _ h [H|[]]; discriminate]).
  run_conn.
  destruct (on_acquire w) as [e|e|h]; run_conn.
  - split; [reflexivity|]. rewrite <- !app_assoc. eexists. split; [reflexivity|].
    split.
    + intros h [H|[H|[]]]; discriminate.
    + intros _ h [H|[H|[]]]; discriminate.
  - split; [reflexivity|]. rewrite <- !app_assoc. eexists. split; [reflexivity|].
    split.
    + intros h [H|[H|[]]]; discriminate.
    + intros _ h [H|[H|[]]]; discriminate.
  - destruct (on_query w query fields h) as [e|e|result] eqn:Hq;
      [exfalso; exact (Hreports _ _ _ _ Hq)| |]; run_conn.
    all: rewrite remove_first_head; split; [reflexivity|].
    all: rewrite <- !app_assoc; eexists; (split; [reflexivity|]); split.
    all: try (intros Hnone h'; exfalso; apply (Hnone h); simpl; auto).
    all: intros h' [H|[H|[H|[H|[H|[]]]]]]; try discriminate.
    all: injection H as <-.
    all: eexists [Acquire; Acquired h; QueryRun query fields h], _, _.
    all: split; reflexivity.
Qed.

(** C6. The claim has every acquired handle released before the
    callback is called, whether the query succeeded or failed.  When
    [query.run] throws after the handle was acquired, the code reaches the
    [catch] block instead of the final callback of the waterfall: the
    callback is called with [UnhandledError(err)], no release comes before
    it, and the handle stays checked out. *)
Theorem run_keeps_handle_when_query_throws (w : world) (query cb : value)
    (opts : obj) (s : state) (h : handle) (e : jserror) :
  isFunction cb = true ->
  truthy query = true ->
  on_acquire w = AcquireGives h ->
  on_query w query opts h = QueryThrows e ->
  let r := run w query (VObj opts) cb s in
  r.1 = Normal tt /\
  checked_out r.2 = h :: checked_out s /\
  log r.2 = log s ++ [ Acquire; Acquired h; QueryRun query opts h;
                       Callback cb [AError (UnhandledError (CauseError e))] ].
Proof.
  intros Hcb Hq Hacq Hthrow r. subst r.
  unfold run. cbn [js_or truthy].
  unfold run_shift. cbn [isFunction]. rewrite Hcb, Hq. cbn [negb].
  run_conn. rewrite Hacq. run_conn. rewrite Hthrow. run_conn.
  rewrite <- !app_assoc. repeat split.
Qed.

Lemma run_keeps_handle_when_query_throws_witness :
  let w := {| on_acquire := AcquireGives 7%nat;
              on_query := fun _ _ _ => QueryThrows (DriverError "not a query") |} in
  let r := run w (VObj ∅) (VObj ∅) (VFun "cb") fresh in
  r.1 = Normal tt /\
  checked_out r.2 = [7%nat] /\
  log r.2 = [ Acquire; Acquired 7%nat; QueryRun (VObj ∅) ∅ 7%nat;
              Callback (VFun "cb")
                [AError (UnhandledError (CauseError (DriverError "not a query")))] ].
Proof.
  exact (run_keeps_handle_when_query_throws
           {| on_acquire := AcquireGives 7%nat;
              on_query := fun _ _ _ => QueryThrows (DriverError "not a query") |}
           (VObj ∅) (VFun "cb") ∅ fresh 7%nat (DriverError "not a query")
           eq_refl eq_refl eq_refl eq_refl).
Defined.

(** A check of the chain that fails makes the chain fail. *)
Lemma rejected_entry_found (fields : obj) (entry : string * kind) :
  In entry recognized -> rejects fields entry = true ->
  exists entry', List.find (rejects fields) recognized = Some entry'.
Proof.
  intros Hin Hrej.
  destruct (List.find (rejects fields) recognized) as [entry'|] eqn:Hfind.
  - eauto.
  - pose proof (List.find_none _ _ Hfind entry Hin) as H. congruence.
Qed.

(** C9, as stated, fails: the empty string is not a number, yet the
    constructor accepts it for [port], does not fail, and builds a pool
    from a configuration whose [port] is the empty string. *)
Lemma configure_accepts_falsy_wrong_type :
  wrong_typed {[ "port" := VStr "" ]} /\
  ~ turned_down (VObj {[ "port" := VStr "" ]}) (VBool true) VUndefined fresh /\
  (construct (VObj {[ "port" := VStr "" ]})).1 = Normal tt /\
  is_Some (_pool (construct (VObj {[ "port" := VStr "" ]})).2) /\
  _config (construct (VObj {[ "port" := VStr "" ]})).2 !! "port" = Some (VStr "").
Proof.
  split; [|split; [|split; [|split]]].
  - exists ("port", KNumber), (VStr ""). split; [|split].
    + simpl. auto.
    + reflexivity.
    + reflexivity.
  - intros (Hpool & _). vm_compute in Hpool. discriminate.
  - vm_compute. reflexivity.
  - vm_compute. eauto.
  - vm_compute. reflexivity.
Qed.

(** C9, amended.  A recognised option that holds a truthy value of the
    wrong type makes [_configure] fail with an [IllegalArgumentError]:
    handed to the callback when one that is a function was supplied,
    thrown otherwise.  The state is untouched: no pool is created and
    the existing pool and configuration stay in place. *)
Theorem configure_rejects_wrong_type (fields : obj) (strict cb : value)
    (s : state) (entry : string * kind) (v : value) :
  In entry recognized ->
  fields !! entry.1 = Some v ->
  truthy v = true ->
  has_kind entry.2 v = false ->
  let cb' := (configure_shift strict cb).2 in
  exists e, is_IllegalArgumentError e = true /\
    configure (VObj fields) strict cb s =
      if isFunction cb'
      then (Normal tt, logged s (Callback cb' [AError e]))
      else (Throw e, s).
Proof.
  intros Hin Hv Htruthy Hkind cb'. subst cb'.
  assert (Hrej : rejects fields entry = true).
  { unfold rejects, field. rewrite Hv. simpl. rewrite Htruthy, Hkind. reflexivity. }
  destruct (rejected_entry_found _ _ Hin Hrej) as [entry' Hfind].
  unfold configure. cbn [js_or truthy].
  destruct (configure_shift strict cb) as [strict' cb'].
  unfold validate. rewrite Hfind. cbn [snd].
  exists (option_error fields entry'). split; [reflexivity|].
  destruct (isFunction cb') eqn:Hf.
  - destruct cb'; try discriminate. reflexivity.
  - rewrite andb_false_r. reflexivity.
Qed.

Lemma configure_rejects_wrong_type_witness :
  exists e, is_IllegalArgumentError e = true /\
    configure (VObj {[ "port" := VStr "blahblah" ]}) (VFun "cb") VUndefined fresh =
      (Normal tt, logged fresh (Callback (VFun "cb") [AError e])).
Proof.
  exact (configure_rejects_wrong_type {[ "port" := VStr "blahblah" ]}
           (VFun "cb") VUndefined fresh ("port", KNumber) (VStr "blahblah")
           (or_introl eq_refl) eq_refl eq_refl eq_refl).
Defined.

Lemma drains_complete_idle (n : nat) (s : state) :
  draining s = [] -> drains_complete n s = s.
Proof.
  intros Hd. induction n as [|n IH]; [reflexivity|].
  unfold drains_complete in *. simpl. rewrite IH.
  unfold drain_complete. run_conn. rewrite Hd. reflexivity.
Qed.

(** C10. A configure call that passes validation on a connection that
    has no pool yet (and so no drain under way) creates the pool and
    never calls the callback: not during the call, and not when any
    number of drains complete afterwards, since no drain was requested. *)
Theorem first_configure_never_calls_back (options strict cb : value)
    (s : state) (n : nat) :
  _pool s = None ->
  draining s = [] ->
  validate (js_or options (VObj ∅)) (configure_shift strict cb).2 = None ->
  let r := configure options strict cb s in
  let s' := drains_complete n r.2 in
  r.1 = Normal tt /\
  is_Some (_pool s') /\
  draining s' = [] /\
  List.filter is_callback (log s') = List.filter is_callback (log s).
Proof.
  intros Hpool Hdrain Hvalid r s'. subst s' r.
  unfold configure.
  destruct (configure_shift strict cb) as [strict' cb']. cbn [snd] in Hvalid.
  rewrite Hvalid. run_conn. rewrite Hpool.
  rewrite drains_complete_idle.
  - destruct (truthy strict'); run_conn;
      (repeat split; [eauto|exact Hdrain|]);
      rewrite List.filter_app; simpl; apply app_nil_r.
  - destruct (truthy strict'); run_conn; exact Hdrain.
Qed.

Lemma first_configure_never_calls_back_witness :
  let r := configure (VObj {[ "db" := VStr "local" ]}) (VFun "cb") VUndefined fresh in
  let s' := drains_complete 3 r.2 in
  r.1 = Normal tt /\
  is_Some (_pool s') /\
  draining s' = [] /\
  List.filter is_callback (log s') = [].
Proof.
  exact (first_configure_never_calls_back (VObj {[ "db" := VStr "local" ]})
           (VFun "cb") VUndefined fresh 3 eq_refl eq_refl eq_refl).
Defined.

(** The examples of the documentation of [Connection#configure]. *)
Example construct_defaults :
  (construct VUndefined).1 = Normal tt /\
  _config (construct VUndefined).2 = defaults.
Proof. split; vm_compute; reflexivity. Qed.

Example configure_db :
  field
    (_config (configure (VObj {[ "db" := VStr "prod_copy" ]}) VUndefined VUndefined
                (construct VUndefined).2).2) "db"
  = VStr "prod_copy".
Proof. vm_compute. reflexivity. Qed.

Example configure_strict_resets :
  field
    (_config
       (configure VNull (VBool true) VUndefined
          (configure (VObj {[ "db" := VStr "prod_copy" ]}) VUndefined VUndefined
             (construct VUndefined).2).2).2) "db"
  = VStr "test".
Proof. vm_compute. reflexivity. Qed.

Example configure_port_message :
  log (configure (VObj {[ "port" := VStr "blahblah" ]}) (VFun "cb") VUndefined
         (construct VUndefined).2).2
  = log (construct VUndefined).2 ++
    [ Callback (VFun "cb")
        [AError
           (IllegalArgumentError
              "Connection#configure(options[, strict][, cb]): options.port: Must be a number!"
              {[ "port" := VObj (actual_expected "string" "number") ]})] ].
Proof. vm_compute. reflexivity. Qed.

End ConnectionFacts.

(** ** Connection: arguments, outcomes and sequences of calls *)

Module ConnectionMore.
Import JS Eff Connection ConnectionOps MixFacts.
Import ConnectionFacts.
#[local] Open Scope list_scope.

(** [run] on arguments that pass its checks, by what pool and query
    answer. *)
Lemma run_cases (w : world) (query options cb : value) (s : state)
    (opts : obj) (cb' : value) :
  run_args options cb = (VObj opts, cb') ->
  isFunction cb' = true ->
  truthy query = true ->
  run w query options cb s =
    match on_acquire w with
    | AcquireThrows e | AcquireFails e =>
        (Normal tt,
         after s (checked_out s)
           [Acquire; Callback cb' [AError (UnhandledError (CauseError e))]])
    | AcquireGives h =>
        match on_query w query opts h with
        | QueryThrows e =>
            (Normal tt,
             after s (h :: checked_out s)
               [Acquire; Acquired h; QueryRun query opts h;
                Callback cb' [AError (UnhandledError (CauseError e))]])
        | QueryFails e =>
            (Normal tt,
             after s (checked_out s)
               [Acquire; Acquired h; QueryRun query opts h; Release h;
                Callback cb' [AError (UnhandledError (CauseError e))]])
        | QueryGives result =>
            (Normal tt,
             after s (checked_out s)
               [Acquire; Acquired h; QueryRun query opts h; Release h;
                Callback cb' [AValue VNull; AValue result]])
        end
    end.
Proof.
  unfold run_args. intros Hargs Hcb Hq.
  unfold run. rewrite Hargs, Hcb, Hq. cbn [negb].
  unfold after. run_conn.
  destruct (on_acquire w) as [e|e|h]; run_conn.
  1,2: rewrite <- !app_assoc; reflexivity.
  destruct (on_query w query opts h) as [e|e|result]; run_conn.
  all: rewrite ?remove_first_head, <- !app_assoc; reflexivity.
Qed.

(** X1. A call of [run] whose callback is a function, on a pool and a
    query that report what goes wrong through [next] rather than throw,
    never throws and calls that callback exactly once, whatever the
    query, the options, the pool and the driver answer. *)
Theorem run_calls_back_once (w : world) (query options cb : value) (s : state) :
  isFunction (run_args options cb).2 = true ->
  reports w ->
  let r := run w query options cb s in
  r.1 = Normal tt /\
  exists new args,
    log r.2 = log s ++ new /\
    List.filter is_callback new = [Callback (run_args options cb).2 args].
Proof.
  intros Hcb [Hacq Hqry] r. subst r.
  destruct (run_args options cb) as [o cb'] eqn:Hargs. cbn [snd] in *.
  destruct (truthy query) eqn:Hq; [destruct o|].
  9:{ unfold run. unfold run_args in Hargs. rewrite Hargs, Hcb, Hq. cbn [negb].
      run_conn. split; [reflexivity|]. eexists [_], _. split; reflexivity. }
  8:{ rewrite (run_cases _ _ _ _ _ _ _ Hargs Hcb Hq).
      destruct (on_acquire w) as [e|e|h];
        [destruct (Hacq e eq_refl)| |
         pose proof (Hqry query fields h) as Hr;
         destruct (on_query w query fields h) as [e|e|result];
           [destruct (Hr e eq_refl)| |]];
        (split; [reflexivity|]); eexists _, _; (split; [reflexivity|]);
        reflexivity. }
  all: unfold run; unfold run_args in Hargs; rewrite Hargs, Hcb, Hq; cbn [negb];
    run_conn; (split; [reflexivity|]); eexists [_], _; split; reflexivity.
Qed.

Lemma run_calls_back_once_witness :
  let w := {| on_acquire := AcquireGives 3%nat;
              on_query := fun _ _ _ => QueryFails (DriverError "boom") |} in
  let r := run w (VStr "query") VUndefined (VFun "cb") fresh in
  r.1 = Normal tt /\
  exists new args,
    log r.2 = log fresh ++ new /\
    List.filter is_callback new = [Callback (VFun "cb") args].
Proof.
  refine (run_calls_back_once
            {| on_acquire := AcquireGives 3%nat;
               on_query := fun _ _ _ => QueryFails (DriverError "boom") |}
            (VStr "query") VUndefined (VFun "cb") fresh eq_refl _).
  split.
  - intros e H. discriminate H.
  - intros q o h e H. discriminate H.
Defined.

(** X2. A call of [run] without a function to call back throws an
    [IllegalArgumentError] and does nothing else: the pool is not asked
    for a handle and the state is what it was. *)
Theorem run_without_callback_throws (w : world) (query options cb : value)
    (s : state) :
  isFunction (run_args options cb).2 = false ->
  exists e, is_IllegalArgumentError e = true /\
    run w query options cb s = (Throw e, s).
Proof.
  intros Hcb. unfold run. unfold run_args in Hcb.
  destruct (run_shift (js_or options (VObj ∅)) cb) as [o cb'].
  cbn [snd] in Hcb. rewrite Hcb. cbn [negb].
  eexists. split; [|reflexivity]. reflexivity.
Qed.

Lemma run_without_callback_throws_witness :
  exists e, is_IllegalArgumentError e = true /\
    run {| on_acquire := AcquireGives 3%nat;
           on_query := fun _ _ _ => QueryGives VNull |}
      (VStr "query") (VObj ∅) VUndefined fresh = (Throw e, fresh).
Proof.
  exact (run_without_callback_throws
           {| on_acquire := AcquireGives 3%nat;
              on_query := fun _ _ _ => QueryGives VNull |}
           (VStr "query") (VObj ∅) VUndefined fresh eq_refl).
Defined.

(** X3. A call of [run] with a falsy query, or with options that are
    neither falsy, nor a function, nor an object, is answered through the
    callback with an [IllegalArgumentError] before the pool is touched:
    no handle is requested and none is checked out. *)
Theorem run_refuses_before_pool (w : world) (query options cb : value)
    (s : state) :
  isFunction (run_args options cb).2 = true ->
  truthy query = false \/ isObject (run_args options cb).1 = false ->
  exists e, is_IllegalArgumentError e = true /\
    run w query options cb s =
      (Normal tt, logged s (Callback (run_args options cb).2 [AError e])).
Proof.
  intros Hcb H. unfold run. unfold run_args in *.
  destruct (run_shift (js_or options (VObj ∅)) cb) as [o cb'].
  cbn [fst snd] in *. rewrite Hcb. cbn [negb].
  destruct (truthy query).
  - destruct H as [H|H]; [discriminate|].
    destruct o; try discriminate; eexists; (split; [|reflexivity]); reflexivity.
  - eexists; (split; [|reflexivity]); reflexivity.
Qed.

Lemma run_refuses_before_pool_witness :
  exists e, is_IllegalArgumentError e = true /\
    run {| on_acquire := AcquireGives 3%nat;
           on_query := fun _ _ _ => QueryGives VNull |}
      (VStr "query") (VNum 5) (VFun "cb") fresh =
      (Normal tt, logged fresh (Callback (VFun "cb") [AError e])).
Proof.
  exact (run_refuses_before_pool
           {| on_acquire := AcquireGives 3%nat;
              on_query := fun _ _ _ => QueryGives VNull |}
           (VStr "query") (VNum 5) (VFun "cb") fresh eq_refl
           (or_intror eq_refl)).
Defined.

(** X5. On arguments that pass the checks of [run], and when neither
    the pool nor the query throws, the callback is called with
    [(null, result)] exactly when the pool handed out a handle and the
    query gave a result; in the other cases it is called with the single
    argument [UnhandledError(err)], [err] being what the pool or the
    query reported. *)
Theorem run_delivers (w : world) (query options cb : value) (s : state)
    (opts : obj) (cb' : value) (args : list arg) :
  run_args options cb = (VObj opts, cb') ->
  isFunction cb' = true ->
  truthy query = true ->
  delivered w query opts = Some args ->
  exists new,
    log (run w query options cb s).2 = log s ++ new /\
    List.filter is_callback new = [Callback cb' args].
Proof.
  intros Hargs Hcb Hq.
  rewrite (run_cases _ _ _ _ _ _ _ Hargs Hcb Hq). unfold delivered.
  destruct (on_acquire w) as [e|e|h];
    [| |destruct (on_query w query opts h) as [e|e|result]];
    intros [= <-]; eexists; split; reflexivity.
Qed.

Lemma run_delivers_witness :
  let w := {| on_acquire := AcquireGives 3%nat;
              on_query := fun _ _ _ => QueryGives (VStr "rows") |} in
  exists new,
    log (run w (VStr "query") (VFun "cb") VUndefined fresh).2 = log fresh ++ new /\
    List.filter is_callback new =
      [Callback (VFun "cb") [AValue VNull; AValue (VStr "rows")]].
Proof.
  exact (run_delivers
           {| on_acquire := AcquireGives 3%nat;
              on_query := fun _ _ _ => QueryGives (VStr "rows") |}
           (VStr "query") (VFun "cb") VUndefined fresh ∅ (VFun "cb")
           [AValue VNull; AValue (VStr "rows")]
           eq_refl eq_refl eq_refl eq_refl).
Defined.

(** A call of [run] whose query does not throw leaves the set of
    checked-out handles as it found it. *)
Lemma run_checked_out (c : run_call) (s : state) :
  answers c ->
  checked_out (run (rc_world c) (rc_query c) (rc_options c) (rc_cb c) s).2
  = checked_out s.
Proof.
  intros Hans.
  destruct (run_args (rc_options c) (rc_cb c)) as [o cb'] eqn:Hargs.
  destruct (isFunction cb') eqn:Hcb.
  - destruct (truthy (rc_query c)) eqn:Hq; [destruct o|].
    8:{ rewrite (run_cases _ _ _ _ _ _ _ Hargs Hcb Hq).
        destruct (on_acquire (rc_world c)) as [e|e|h]; try reflexivity.
        destruct (on_query (rc_world c) (rc_query c) fields h) as [e|e|result] eqn:Hqr;
          try reflexivity.
        exfalso. exact (Hans _ _ _ _ Hqr). }
    all: unfold run; unfold run_args in Hargs; rewrite Hargs, Hcb, Hq; cbn [negb];
      run_conn; reflexivity.
  - unfold run. unfold run_args in Hargs. rewrite Hargs, Hcb. reflexivity.
Qed.

Lemma configure_checked_out (options strict cb : value) (s : state) :
  checked_out (configure options strict cb s).2 = checked_out s.
Proof.
  unfold configure. destruct (configure_shift strict cb) as [strict' cb'].
  destruct (validate (js_or options (VObj ∅)) cb') as [e|].
  - destruct (truthy cb' && isFunction cb'); reflexivity.
  - run_conn. destruct (truthy strict'); run_conn; destruct (_pool s); reflexivity.
Qed.

Lemma drain_finishes_checked_out (n : nat) (s : state) :
  checked_out (drain_finishes n s).2 = checked_out s.
Proof.
  unfold drain_finishes. run_conn.
  destruct (draining s !! n) as [[old cb]|]; [|reflexivity].
  run_conn. destruct (truthy cb && isFunction cb); reflexivity.
Qed.

(** X6. Over any sequence of [configure] calls, [run] calls and drains
    finishing, as long as no query throws, the Connection ends with
    exactly the handles checked out that it started with: [run] gives
    back every handle it takes. *)
Theorem no_handle_kept (ops : list op) (s : state) :
  all_answer ops ->
  checked_out (exec ops s) = checked_out s.
Proof.
  unfold exec. revert s. induction ops as [|o ops IH]; intros s Hall.
  - reflexivity.
  - cbn [fold_left]. rewrite IH.
    + destruct o as [options strict cb|c|n]; cbn [step].
      * apply configure_checked_out.
      * apply run_checked_out. apply Hall. left. reflexivity.
      * apply drain_finishes_checked_out.
    + intros c Hc. apply Hall. right. exact Hc.
Qed.

Lemma no_handle_kept_witness :
  let c := {| rc_world := {| on_acquire := AcquireGives 3%nat;
                             on_query := fun _ _ _ => QueryFails (DriverError "no table") |};
              rc_query := VStr "query"; rc_options := VUndefined;
              rc_cb := VFun "cb" |} in
  checked_out (exec [OpRun c; OpConfigure VNull VUndefined VUndefined; OpRun c] fresh)
  = checked_out fresh.
Proof.
  refine (no_handle_kept _ fresh _).
  intros c [Hc|[Hc|[Hc|[]]]]; try discriminate;
    injection Hc as <-; intros q o h e; discriminate.
Defined.

(** The witness of the ordering property of [run]. *)
Lemma run_releases_before_callback_witness :
  let w := {| on_acquire := AcquireGives 3%nat;
              on_query := fun _ _ _ => QueryFails (DriverError "no table") |} in
  let s' := (run w (VStr "query") VUndefined (VFun "cb") fresh).2 in
  checked_out s' = checked_out fresh /\
  exists new,
    log s' = log fresh ++ new /\
    (forall h, In (Acquired h) new ->
       exists pre cb' args,
         new = pre ++ [Release h; Callback cb' args] /\
         List.filter is_callback pre = []) /\
    ((forall h, ~ In (Acquired h) new) -> forall h, ~ In (Release h) new).
Proof.
  refine (run_releases_before_callback
            {| on_acquire := AcquireGives 3%nat;
               on_query := fun _ _ _ => QueryFails (DriverError "no table") |}
            (VStr "query") VUndefined (VFun "cb") fresh _).
  intros q o h e. discriminate.
Defined.

(** [configure] on arguments that pass validation. *)
Lemma configure_accepted (options strict cb : value) (s : state)
    (fields : obj) (strict' cb' : value) :
  configure_args options strict cb = (VObj fields, strict', cb') ->
  validate (VObj fields) cb' = None ->
  let c := if truthy strict'
           then deepMixIn (deepMixIn (_config s) defaults) fields
           else deepMixIn (_config s) fields in
  let p := {| pool_id := pools_made s;
              pool_settings :=
                list_to_map (map (fun k => (k, field c k)) pool_keys) |} in
  configure options strict cb s =
    (Normal tt,
     {| _config := c;
        _pool := Some p;
        pools_made := S (pools_made s);
        draining := draining s ++
                    match _pool s with Some old => [(old, cb')] | None => [] end;
        checked_out := checked_out s;
        log := log s ++ PoolCreated p ::
               match _pool s with Some old => [Drain old] | None => [] end |}).
Proof.
  unfold configure_args. intros Hargs Hvalid. cbv zeta.
  injection Hargs as Ho Hs Hc.
  unfold configure. rewrite Ho.
  destruct (configure_shift strict cb) as [st c0]. cbn [fst snd] in Hs, Hc.
  subst st c0. rewrite Hvalid.
  run_conn. unfold deepMixIn, pool_keys.
  destruct (truthy strict'); run_conn; destruct (_pool s); run_conn;
    rewrite <- ?app_assoc, ?app_nil_r; reflexivity.
Qed.

(** X7. [_configure] accepts its arguments exactly when the options are
    an object in which every recognised key holds either a falsy value
    or a value of the key's type, and the callback is falsy or a
    function. *)
Theorem validate_accepts_iff (options cb : value) :
  validate options cb = None <->
  (exists fields, options = VObj fields /\
     forall entry, In entry recognized ->
       truthy (field fields entry.1) = true ->
       has_kind entry.2 (field fields entry.1) = true) /\
  (truthy cb = true -> isFunction cb = true).
Proof.
  unfold validate. split.
  - destruct options; try discriminate.
    destruct (List.find (rejects fields) recognized) as [entry|] eqn:Hfind;
      [discriminate|].
    intros H. split.
    + exists fields. split; [reflexivity|]. intros entry Hin Ht.
      pose proof (List.find_none _ _ Hfind entry Hin) as Hrej.
      unfold rejects in Hrej. rewrite Ht in Hrej. simpl in Hrej.
      destruct (has_kind entry.2 (field fields entry.1)); [reflexivity|discriminate].
    + intros Ht. rewrite Ht in H. simpl in H.
      destruct (isFunction cb); [reflexivity|discriminate].
  - intros [(fields & -> & Hfields) Hcb].
    destruct (List.find (rejects fields) recognized) as [entry|] eqn:Hfind.
    + apply List.find_some in Hfind as [Hin Hrej].
      unfold rejects in Hrej. apply andb_prop in Hrej as [Ht Hk].
      rewrite (Hfields entry Hin Ht) in Hk. discriminate.
    + destruct (truthy cb); [|reflexivity].
      rewrite (Hcb eq_refl). reflexivity.
Qed.

(** X13. Options that are truthy but not an object, or a callback that
    is truthy but not a function, make [_configure] fail with an
    [IllegalArgumentError] (for the callback: when the options themselves
    are in order or not).  The error is handed to the callback if that is
    a function and thrown otherwise; the configuration, the pool and the
    pending drains stay as they were. *)
Theorem configure_rejects_shape (options strict cb : value) (s : state) :
  isObject (js_or options (VObj ∅)) = false \/
  (truthy (configure_shift strict cb).2 = true /\
   isFunction (configure_shift strict cb).2 = false) ->
  exists e, is_IllegalArgumentError e = true /\
    configure options strict cb s =
      if isFunction (configure_shift strict cb).2
      then (Normal tt, logged s (Callback (configure_shift strict cb).2 [AError e]))
      else (Throw e, s).
Proof.
  intros H. unfold configure.
  destruct (configure_shift strict cb) as [strict' cb']. cbn [snd] in *.
  assert (Hv : exists e, is_IllegalArgumentError e = true /\
                 validate (js_or options (VObj ∅)) cb' = Some e).
  { unfold validate. destruct H as [H|[Ht Hf]].
    - destruct (js_or options (VObj ∅)); try discriminate; eexists;
        (split; [|reflexivity]); reflexivity.
    - destruct (js_or options (VObj ∅)); try (eexists; (split; [|reflexivity]); reflexivity).
      destruct (List.find (rejects fields) recognized);
        [eexists; (split; [|reflexivity]); reflexivity|].
      rewrite Ht, Hf. eexists; (split; [|reflexivity]); reflexivity. }
  destruct Hv as (e & He & Hv). rewrite Hv. exists e. split; [exact He|].
  destruct (isFunction cb') eqn:Hf.
  - destruct cb'; try discriminate. reflexivity.
  - rewrite andb_false_r. reflexivity.
Qed.

Lemma configure_rejects_shape_witness :
  exists e, is_IllegalArgumentError e = true /\
    configure (VObj {[ "db" := VStr "local" ]}) VUndefined (VStr "later")
      (construct VUndefined).2 = (Throw e, (construct VUndefined).2).
Proof.
  exact (configure_rejects_shape (VObj {[ "db" := VStr "local" ]}) VUndefined
           (VStr "later") (construct VUndefined).2
           (or_intror (conj eq_refl eq_refl))).
Defined.

(** X8. After a non-strict [configure] that passes validation, [get]
    reads back every option that was passed (for a value that is not a
    plain object), and reads every key that was not passed as before. *)
Theorem configure_then_get (options strict cb : value) (s : state)
    (fields : obj) (strict' cb' : value) (k : string) :
  configure_args options strict cb = (VObj fields, strict', cb') ->
  validate (VObj fields) cb' = None ->
  truthy strict' = false ->
  let s' := (configure options strict cb s).2 in
  (forall v, fields !! k = Some v -> isObject v = false -> get s' k = v) /\
  (fields !! k = None -> get s' k = get s k).
Proof.
  intros Hargs Hvalid Hstrict s'. subst s'.
  rewrite (configure_accepted _ _ _ _ _ _ _ Hargs Hvalid), Hstrict.
  unfold get, field. cbn [snd _config]. split.
  - intros v Hk Hv. rewrite (deepMixIn_lookup_overwrite _ _ _ _ Hk Hv). reflexivity.
  - intros Hk. rewrite (deepMixIn_lookup_absent _ _ _ Hk). reflexivity.
Qed.

Lemma configure_then_get_witness :
  let s' := (configure (VObj {[ "db" := VStr "prod_copy" ]}) VUndefined VUndefined
               (construct VUndefined).2).2 in
  (forall v, ({[ "db" := VStr "prod_copy" ]} : obj) !! "db" = Some v ->
             isObject v = false -> get s' "db" = v) /\
  (({[ "db" := VStr "prod_copy" ]} : obj) !! "db" = None ->
   get s' "db" = get (construct VUndefined).2 "db").
Proof.
  exact (configure_then_get (VObj {[ "db" := VStr "prod_copy" ]}) VUndefined
           VUndefined (construct VUndefined).2 {[ "db" := VStr "prod_copy" ]}
           VUndefined VUndefined "db" eq_refl eq_refl eq_refl).
Defined.

Lemma defaults_flat (k : string) (v : value) :
  defaults !! k = Some v -> isObject v = false.
Proof.
  unfold defaults. cbn [list_to_map foldr fst snd uncurry].
  repeat (rewrite lookup_insert; case_decide;
          [intros [= <-]; reflexivity|]).
  rewrite lookup_empty. discriminate.
Qed.

(** X9. After a strict [configure] that passes validation, [get] reads
    an option that was passed (for a value that is not a plain object) as
    passed, a key that was not passed but has a default as its default,
    and any other key as before: keys outside the defaults survive the
    reset. *)
Theorem configure_strict_then_get (options strict cb : value) (s : state)
    (fields : obj) (strict' cb' : value) (k : string) :
  configure_args options strict cb = (VObj fields, strict', cb') ->
  validate (VObj fields) cb' = None ->
  truthy strict' = true ->
  let s' := (configure options strict cb s).2 in
  (forall v, fields !! k = Some v -> isObject v = false -> get s' k = v) /\
  (forall v, fields !! k = None -> defaults !! k = Some v -> get s' k = v) /\
  (fields !! k = None -> defaults !! k = None -> get s' k = get s k).
Proof.
  intros Hargs Hvalid Hstrict s'. subst s'.
  rewrite (configure_accepted _ _ _ _ _ _ _ Hargs Hvalid), Hstrict.
  unfold get, field. cbn [snd _config]. split; [|split].
  - intros v Hk Hv. rewrite (deepMixIn_lookup_overwrite _ _ _ _ Hk Hv). reflexivity.
  - intros v Hk Hd. rewrite (deepMixIn_lookup_absent _ _ _ Hk).
    rewrite (deepMixIn_lookup_overwrite _ _ _ _ Hd (defaults_flat _ _ Hd)).
    reflexivity.
  - intros Hk Hd. rewrite (deepMixIn_lookup_absent _ _ _ Hk).
    rewrite (deepMixIn_lookup_absent _ _ _ Hd). reflexivity.
Qed.

Lemma configure_strict_then_get_witness :
  let s := (configure (VObj {[ "db" := VStr "prod_copy"; "shard" := VNum 4 ]})
              VUndefined VUndefined (construct VUndefined).2).2 in
  let s' := (configure VNull (VBool true) VUndefined s).2 in
  get s "db" = VStr "prod_copy" /\
  get s' "db" = VStr "test" /\
  get s' "shard" = VNum 4.
Proof.
  pose proof (configure_strict_then_get VNull (VBool true) VUndefined
                (configure (VObj {[ "db" := VStr "prod_copy"; "shard" := VNum 4 ]})
                   VUndefined VUndefined (construct VUndefined).2).2
                ∅ (VBool true) VUndefined) as H.
  split; [vm_compute; reflexivity|]. split.
  - exact (proj1 (proj2 (H "db" eq_refl eq_refl eq_refl)) (VStr "test") eq_refl eq_refl).
  - rewrite (proj2 (proj2 (H "shard" eq_refl eq_refl eq_refl)) eq_refl eq_refl).
    vm_compute. reflexivity.
Defined.

Lemma pool_settings_lookup (c : obj) (k : string) :
  (list_to_map (map (fun k => (k, field c k)) pool_keys) : obj) !! k =
    if bool_decide (In k pool_keys) then Some (field c k) else None.
Proof.
  unfold pool_keys. cbn [map list_to_map foldr fst snd uncurry].
  repeat (rewrite lookup_insert; case_decide;
          [subst; rewrite bool_decide_eq_true_2 by (simpl; tauto); reflexivity|]).
  rewrite lookup_empty, bool_decide_eq_false_2; [reflexivity|].
  simpl. intuition congruence.
Qed.

(** X10. A [configure] that passes validation swaps in a new pool and
    only asks the previous one, if there was one, to drain.  The new
    pool is built from the merged configuration: each of the eight pool
    settings is what [get] reads afterwards, and no other key of the
    configuration is a setting of the pool. *)
Theorem configure_swaps_pool (options strict cb : value) (s : state)
    (fields : obj) (strict' cb' : value) :
  configure_args options strict cb = (VObj fields, strict', cb') ->
  validate (VObj fields) cb' = None ->
  let r := configure options strict cb s in
  r.1 = Normal tt /\
  exists p,
    _pool r.2 = Some p /\
    pool_id p = pools_made s /\
    (forall k, pool_settings p !! k =
               if bool_decide (In k pool_keys) then Some (get r.2 k) else None) /\
    log r.2 = log s ++ PoolCreated p ::
              match _pool s with Some old => [Drain old] | None => [] end /\
    draining r.2 = draining s ++
              match _pool s with Some old => [(old, cb')] | None => [] end.
Proof.
  intros Hargs Hvalid r. subst r.
  rewrite (configure_accepted _ _ _ _ _ _ _ Hargs Hvalid).
  cbn [fst snd]. split; [reflexivity|].
  eexists. split; [reflexivity|]. cbn [pool_id pool_settings _pool log draining].
  split; [reflexivity|]. split; [|split; reflexivity].
  intros k. unfold get. cbn [_config]. apply pool_settings_lookup.
Qed.

Lemma configure_swaps_pool_witness :
  let s := (construct VUndefined).2 in
  let r := configure (VObj {[ "max" := VNum 10 ]}) VUndefined VUndefined s in
  r.1 = Normal tt /\
  exists p,
    _pool r.2 = Some p /\
    pool_id p = 1%nat /\
    (forall k, pool_settings p !! k =
               if bool_decide (In k pool_keys) then Some (get r.2 k) else None) /\
    log r.2 = log s ++ PoolCreated p ::
              match _pool s with Some old => [Drain old] | None => [] end /\
    draining r.2 = draining s ++
              match _pool s with Some old => [(old, VUndefined)] | None => [] end.
Proof.
  exact (configure_swaps_pool (VObj {[ "max" := VNum 10 ]}) VUndefined VUndefined
           (construct VUndefined).2 {[ "max" := VNum 10 ]} VUndefined VUndefined
           eq_refl eq_refl).
Defined.



Lemma configure_pools_apart (options strict cb : value) (s : state) :
  pools_apart s -> pools_apart (configure options strict cb s).2.
Proof.
  intros [Hcur Hdr].
  destruct (configure_args options strict cb) as [[o strict'] cb'] eqn:Hargs.
  destruct (validate o cb') as [e|] eqn:Hv.
  - unfold configure_args in Hargs. injection Hargs as Ho Hs Hc.
    unfold configure. rewrite Ho.
    destruct (configure_shift strict cb) as [st c0]. cbn [fst snd] in Hs, Hc.
    subst st c0. rewrite Hv.
    destruct (truthy cb' && isFunction cb'); split; assumption.
  - destruct o; try discriminate.
    rewrite (configure_accepted _ _ _ _ _ _ _ Hargs Hv). cbn [snd].
    split; cbn [_pool pools_made draining].
    + intros p [= <-]. cbn [pool_id]. lia.
    + intros p f Hin. apply in_app_or in Hin as [Hin|Hin].
      * destruct (Hdr p f Hin) as [Hlt _]. split; [lia|].
        intros q [= <-]. cbn [pool_id]. lia.
      * destruct (_pool s) as [old|] eqn:Hold; [|destruct Hin].
        destruct Hin as [[= <- <-]|[]].
        pose proof (Hcur old eq_refl) as Hlt. split; [lia|].
        intros q [= <-]. cbn [pool_id]. lia.
Qed.

Lemma run_pools_apart (c : run_call) (s : state) :
  pools_apart s ->
  pools_apart (run (rc_world c) (rc_query c) (rc_options c) (rc_cb c) s).2.
Proof.
  intros H.
  assert (Hsame : forall s', _pool s' = _pool s -> pools_made s' = pools_made s ->
                             draining s' = draining s -> pools_apart s').
  { intros s' Hp Hm Hd. unfold pools_apart. rewrite Hp, Hm, Hd. exact H. }
  unfold run.
  destruct (run_shift (js_or (rc_options c) (VObj ∅)) (rc_cb c)) as [o cb'].
  destruct (isFunction cb'); cbn [negb]; [|exact H].
  destruct (truthy (rc_query c)); cbn [negb]; [|apply Hsame; reflexivity].
  destruct o; try (apply Hsame; reflexivity).
  run_conn.
  destruct (on_acquire (rc_world c)) as [e|e|h]; run_conn;
    try (apply Hsame; reflexivity).
  destruct (on_query (rc_world c) (rc_query c) fields h) as [e|e|result];
    run_conn; apply Hsame; reflexivity.
Qed.

Lemma drain_finishes_pools_apart (n : nat) (s : state) :
  pools_apart s -> pools_apart (drain_finishes n s).2.
Proof.
  intros [Hcur Hdr]. unfold drain_finishes. run_conn.
  destruct (draining s !! n) as [[old cb]|] eqn:Hn; [|split; assumption].
  assert (Hsub : forall x, In x (delete n (draining s)) -> In x (draining s)).
  { intros x Hx. apply list_elem_of_In. apply list_elem_of_In in Hx.
    eapply list_elem_of_delete_inv. exact Hx. }
  run_conn. destruct (truthy cb && isFunction cb); run_conn;
    (split; cbn [_pool pools_made draining];
     [exact Hcur|intros p f Hin; apply (Hdr p f); apply Hsub; exact Hin]).
Qed.

(** X12. However a Connection is configured, reconfigured and used, the
    pool it hands handles out of is never one of the pools it is draining
    (and about to destroy): every pool has its own identity, and only
    replaced pools are drained. *)
Theorem pool_in_use_never_drained (ops : list op) :
  let s := exec ops fresh in
  pools_apart s /\
  forall p old cb, _pool s = Some p -> In (old, cb) (draining s) ->
                   pool_id old <> pool_id p.
Proof.
  assert (H : forall s0, pools_apart s0 -> pools_apart (exec ops s0)).
  { unfold exec. induction ops as [|o ops IH]; intros s0 H0; [exact H0|].
    cbn [fold_left]. apply IH.
    destruct o as [options strict cb|c|n]; cbn [step].
    - apply configure_pools_apart. exact H0.
    - apply run_pools_apart. exact H0.
    - apply drain_finishes_pools_apart. exact H0. }
  assert (Hfresh : pools_apart fresh).
  { split; [intros p [=]|intros p cb []]. }
  intros s. subst s. split; [apply H; exact Hfresh|].
  intros p old cb Hp Hin.
  destruct (H fresh Hfresh) as [_ Hdr].
  exact (proj2 (Hdr old cb Hin) p Hp).
Qed.

End ConnectionMore.

(** ** save: call shapes, outcomes and repeated saves *)

Module ModelMore.
Import JS Eff Model ModelOps MixFacts.
Import ModelFacts.
#[local] Open Scope string_scope.


(** The callbacks of a well-formed [save] on a connection that does not
    throw: one call, on the receiver the options name. *)
Lemma save_callbacks (m : model) (d : env) (options cb : value) (i : instance)
    (opts : obj) (cb' : value) :
  well_formed options cb = Some (opts, cb') ->
  connection_reports d ->
  (save m d options cb (on i)).1 = Normal tt /\
  exists args,
    callbacks (log (save m d options cb (on i)).2) =
      [Callback cb' (receiver_of opts) args].
Proof.
  intros Hwf Hrep. rewrite (save_run _ _ _ _ _ _ _ Hwf).
  destruct (r_table d (tableName m)) as [e|]; [split; eauto|].
  cbv zeta.
  destruct (r_write d (save_query m (stamped m d i))) as [e|]; [split; eauto|].
  destruct (connection_run d (save_query m (stamped m d i)) opts)
    as [e|e|cursor] eqn:Hrun;
    [destruct (Hrep _ _ e Hrun)|split; eauto|].
  destruct (not_strictly_zero (field cursor "errors")); split; eauto.
Qed.



(** X15. Options whose [context] is truthy but not an object are turned
    down: the callback is called, as a plain call, with an
    [IllegalArgumentError]; no query is built or run and the instance is
    untouched. *)
Theorem save_rejects_context (m : model) (d : env) (options cb : value)
    (s : state) (opts : obj) (cb' : value) :
  call_shape options cb = (VObj opts, cb') ->
  isFunction cb' = true ->
  truthy (field opts "context") = true ->
  isObject (field opts "context") = false ->
  exists e, is_IllegalArgumentError e = true /\
    save m d options cb s =
      (Normal tt, logged s (Callback cb' NoReceiver [AError e])).
Proof.
  intros Hshape Hcb Ht Ho. unfold save. rewrite Hshape, Hcb, Ht, Ho.
  eexists. split; [|reflexivity]. reflexivity.
Qed.

Lemma save_rejects_context_witness :
  exists e, is_IllegalArgumentError e = true /\
    save (Scenario.Person true false)
      (Scenario.stub (RunGives Scenario.insert_result))
      (VObj {[ "context" := VStr "window" ]}) Scenario.done (on Scenario.john) =
      (Normal tt,
       logged (on Scenario.john) (Callback Scenario.done NoReceiver [AError e])).
Proof.
  exact (save_rejects_context (Scenario.Person true false)
           (Scenario.stub (RunGives Scenario.insert_result))
           (VObj {[ "context" := VStr "window" ]}) Scenario.done
           (on Scenario.john) {[ "context" := VStr "window" ]} Scenario.done
           eq_refl eq_refl eq_refl eq_refl).
Defined.

(** X16. On a well-formed call, and on a connection that reports what
    goes wrong rather than throw, the callback is applied to
    [options.context] when the options carry one, and to the instance
    otherwise, on success as on every failure that is reported or
    thrown while the query is built. *)
Theorem save_callback_receiver (m : model) (d : env) (options cb : value)
    (i : instance) (opts : obj) (cb' : value) :
  well_formed options cb = Some (opts, cb') ->
  connection_reports d ->
  exists args,
    callbacks (log (save m d options cb (on i)).2) =
      [Callback cb'
         (if truthy (field opts "context")
          then OnContext (field opts "context") else OnInstance)
         args] /\
    (truthy (field opts "context") = true -> isObject (field opts "context") = true).
Proof.
  intros Hwf Hrep.
  destruct (save_callbacks m d options cb i opts cb' Hwf Hrep) as [_ [args H]].
  exists args. split; [exact H|].
  apply well_formed_inv in Hwf as (_ & _ & Hctx).
  intros Ht. rewrite Ht in Hctx. simpl in Hctx.
  destruct (isObject (field opts "context")); [reflexivity|discriminate].
Qed.

Lemma save_callback_receiver_witness :
  exists args,
    callbacks
      (log (save (Scenario.Person true false)
              (Scenario.stub (RunFails (DriverError "no connection")))
              (VObj {[ "context" := VObj {[ "name" := VStr "app" ]} ]})
              Scenario.done (on Scenario.john)).2) =
      [Callback Scenario.done (OnContext (VObj {[ "name" := VStr "app" ]})) args] /\
    (truthy (VObj {[ "name" := VStr "app" ]}) = true ->
     isObject (VObj {[ "name" := VStr "app" ]}) = true).
Proof.
  refine (save_callback_receiver (Scenario.Person true false)
            (Scenario.stub (RunFails (DriverError "no connection")))
            (VObj {[ "context" := VObj {[ "name" := VStr "app" ]} ]})
            Scenario.done Scenario.john
            {[ "context" := VObj {[ "name" := VStr "app" ]} ]} Scenario.done
            eq_refl _).
  intros q o e H. discriminate H.
Defined.



Lemma stamped_key (m : model) (d : env) (i : instance) :
  key_not_stamped m ->
  stamped m d i !! idAttribute m = attributes i !! idAttribute m.
Proof.
  intros Hk. unfold stamped.
  destruct (timestamps m) eqn:Hts; [|reflexivity].
  destruct Hk as [Hk|(Hc & Hu & Hd)]; [congruence|].
  destruct (isNew m i); rewrite !lookup_insert_ne by congruence; reflexivity.
Qed.

Lemma save_query_expected (m : model) (d : env) (i : instance) :
  key_not_stamped m ->
  save_query m (stamped m d i) = expected_write m d i.
Proof.
  intros Hk. unfold save_query, expected_write, isNew, get, field.
  rewrite (stamped_key m d i Hk). reflexivity.
Qed.

(** The log of a well-formed [save] that gets as far as the write: the
    write comes first and is the only one. *)
Lemma save_log_head (m : model) (d : env) (options cb : value) (i : instance)
    (opts : obj) (cb' : value) :
  well_formed options cb = Some (opts, cb') ->
  r_table d (tableName m) = None ->
  r_write d (save_query m (stamped m d i)) = None ->
  exists rest,
    log (save m d options cb (on i)).2 =
      Run (save_query m (stamped m d i)) opts :: rest /\
    List.filter is_run rest = [].
Proof.
  intros Hwf Ht Hw. rewrite (save_run _ _ _ _ _ _ _ Hwf), Ht. cbv zeta.
  rewrite Hw.
  destruct (connection_run d (save_query m (stamped m d i)) opts) as [e|e|cursor];
    [| |destruct (not_strictly_zero (field cursor "errors"))];
    eexists; split; reflexivity.
Qed.

(** X18. When stamping leaves the primary key alone, [save] issues
    exactly one write: an insert of the (stamped) attributes when the
    instance is new, and otherwise an update, keyed by the instance's
    primary key, with the (stamped) attributes as changes; both ask for
    the written row back. *)
Theorem save_inserts_or_updates (m : model) (d : env) (options cb : value)
    (i : instance) (opts : obj) (cb' : value) :
  well_formed options cb = Some (opts, cb') ->
  key_not_stamped m ->
  r_table d (tableName m) = None ->
  r_write d (expected_write m d i) = None ->
  exists rest,
    log (save m d options cb (on i)).2 = Run (expected_write m d i) opts :: rest /\
    List.filter is_run rest = [].
Proof.
  intros Hwf Hk Ht Hw. rewrite <- (save_query_expected m d i Hk) in *.
  exact (save_log_head m d options cb i opts cb' Hwf Ht Hw).
Qed.

Lemma save_inserts_or_updates_witness :
  exists rest,
    log (save (Scenario.Person false false)
           (Scenario.stub (RunFails (DriverError "no connection")))
           Scenario.done VUndefined (on Scenario.john2)).2
    = Run (Update "person" (VNum 2) (attributes Scenario.john2) true) ∅ :: rest /\
    List.filter is_run rest = [].
Proof.
  exact (save_inserts_or_updates (Scenario.Person false false)
           (Scenario.stub (RunFails (DriverError "no connection")))
           Scenario.done VUndefined Scenario.john2 ∅ Scenario.done
           eq_refl (or_introl eq_refl) eq_refl eq_refl).
Defined.

(** A successful [save], by its result. *)
Lemma save_succeeds (m : model) (d : env) (options cb : value) (i : instance)
    (opts : obj) (cb' : value) (cursor : obj) :
  well_formed options cb = Some (opts, cb') ->
  r_table d (tableName m) = None ->
  r_write d (save_query m (stamped m d i)) = None ->
  connection_run d (save_query m (stamped m d i)) opts = RunGives cursor ->
  field cursor "errors" = VNum 0 ->
  self (save m d options cb (on i)).2 =
    with_attributes i (deepMixIn_value (stamped m d i) (field cursor "new_val")).
Proof.
  intros Hwf Ht Hw Hrun Herr.
  rewrite (save_run _ _ _ _ _ _ _ Hwf), Ht. cbv zeta.
  rewrite Hw, Hrun, Herr. reflexivity.
Qed.

(** X19. After a successful [save] the attributes hold the values of
    the returned row: a key of the row whose value is not a plain object
    reads as in the row (so the primary key and the times the server
    computed replace what was sent), and a key the row does not have
    reads as it was sent. *)
Theorem save_takes_server_values (m : model) (d : env) (options cb : value)
    (i : instance) (opts : obj) (cb' : value) (cursor row : obj) (k : string) :
  well_formed options cb = Some (opts, cb') ->
  r_table d (tableName m) = None ->
  r_write d (save_query m (stamped m d i)) = None ->
  connection_run d (save_query m (stamped m d i)) opts = RunGives cursor ->
  field cursor "errors" = VNum 0 ->
  field cursor "new_val" = VObj row ->
  let a' := attributes (self (save m d options cb (on i)).2) in
  (forall v, row !! k = Some v -> isObject v = false -> a' !! k = Some v) /\
  (row !! k = None -> a' !! k = stamped m d i !! k).
Proof.
  intros Hwf Ht Hw Hrun Herr Hrow a'. subst a'.
  rewrite (save_succeeds _ _ _ _ _ _ _ _ Hwf Ht Hw Hrun Herr), Hrow.
  cbn [with_attributes attributes]. rewrite deepMixIn_value_obj. split.
  - intros v Hk Hv. exact (deepMixIn_lookup_overwrite _ _ _ _ Hk Hv).
  - intros Hk. exact (deepMixIn_lookup_absent _ _ _ Hk).
Qed.

(** A stubbed insert whose answer carries a generated primary key. *)
Lemma save_takes_server_values_witness :
  let cursor : obj :=
    <["errors" := VNum 0]>
      {[ "new_val" := VObj (<["id" := VStr "4a16"]> Scenario.inserted_row) ]} in
  let a' := attributes
              (self (save (Scenario.Person true false)
                       (Scenario.stub (RunGives cursor))
                       Scenario.done VUndefined (on Scenario.john)).2) in
  a' !! "id" = Some (VStr "4a16") /\ a' !! "name" = Some (VStr "John").
Proof.
  pose proof (save_takes_server_values (Scenario.Person true false)
                (Scenario.stub
                   (RunGives
                      (<["errors" := VNum 0]>
                         {[ "new_val" :=
                              VObj (<["id" := VStr "4a16"]> Scenario.inserted_row) ]})))
                Scenario.done VUndefined Scenario.john ∅ Scenario.done
                (<["errors" := VNum 0]>
                   {[ "new_val" :=
                        VObj (<["id" := VStr "4a16"]> Scenario.inserted_row) ]})
                (<["id" := VStr "4a16"]> Scenario.inserted_row)) as H.
  split.
  - exact (proj1 (H "id" eq_refl eq_refl eq_refl eq_refl eq_refl eq_refl)
             (VStr "4a16") eq_refl eq_refl).
  - exact (proj1 (H "name" eq_refl eq_refl eq_refl eq_refl eq_refl eq_refl)
             (VStr "John") eq_refl eq_refl).
Defined.

(** X20. A successful [save] whose returned row carries a non-null
    primary key leaves the instance persisted: [isNew] is false
    afterwards. *)
Theorem save_makes_persisted (m : model) (d : env) (options cb : value)
    (i : instance) (opts : obj) (cb' : value) (cursor row : obj) (v : value) :
  well_formed options cb = Some (opts, cb') ->
  r_table d (tableName m) = None ->
  r_write d (save_query m (stamped m d i)) = None ->
  connection_run d (save_query m (stamped m d i)) opts = RunGives cursor ->
  field cursor "errors" = VNum 0 ->
  field cursor "new_val" = VObj row ->
  row !! idAttribute m = Some v ->
  nullish v = false ->
  isNew m (self (save m d options cb (on i)).2) = false.
Proof.
  intros Hwf Ht Hw Hrun Herr Hrow Hid Hv.
  rewrite (save_succeeds _ _ _ _ _ _ _ _ Hwf Ht Hw Hrun Herr), Hrow.
  unfold isNew, field. cbn [with_attributes attributes].
  rewrite deepMixIn_value_obj.
  destruct (deepMixIn_lookup_non_null (stamped m d i) row _ v Hid Hv)
    as (v' & Hv' & Hn).
  rewrite Hv'. exact Hn.
Qed.

Lemma save_makes_persisted_witness :
  isNew (Scenario.Person true false) Scenario.john = true /\
  isNew (Scenario.Person true false)
    (self (save (Scenario.Person true false)
             (Scenario.stub
                (RunGives
                   (<["errors" := VNum 0]>
                      {[ "new_val" :=
                           VObj (<["id" := VStr "4a16"]> Scenario.inserted_row) ]})))
             Scenario.done VUndefined (on Scenario.john)).2) = false.
Proof.
  split; [reflexivity|].
  exact (save_makes_persisted (Scenario.Person true false)
           (Scenario.stub
              (RunGives
                 (<["errors" := VNum 0]>
                    {[ "new_val" :=
                         VObj (<["id" := VStr "4a16"]> Scenario.inserted_row) ]})))
           Scenario.done VUndefined Scenario.john ∅ Scenario.done
           (<["errors" := VNum 0]>
              {[ "new_val" := VObj (<["id" := VStr "4a16"]> Scenario.inserted_row) ]})
           (<["id" := VStr "4a16"]> Scenario.inserted_row) (VStr "4a16")
           eq_refl eq_refl eq_refl eq_refl eq_refl eq_refl eq_refl eq_refl).
Defined.

(** X21. Saving twice: after a successful [save] whose returned row
    carries the primary key [v] (not null, not a plain object), the next
    [save] of the same instance issues an update of the row with key [v],
    never a second insert, when stamping leaves the primary key alone. *)
Theorem save_again_updates (m : model) (d1 d2 : env) (options1 cb1 options2 cb2 : value)
    (i : instance) (opts1 opts2 : obj) (cb1' cb2' : value) (cursor row : obj)
    (v : value) :
  well_formed options1 cb1 = Some (opts1, cb1') ->
  r_table d1 (tableName m) = None ->
  r_write d1 (save_query m (stamped m d1 i)) = None ->
  connection_run d1 (save_query m (stamped m d1 i)) opts1 = RunGives cursor ->
  field cursor "errors" = VNum 0 ->
  field cursor "new_val" = VObj row ->
  row !! idAttribute m = Some v ->
  nullish v = false ->
  isObject v = false ->
  let i1 := self (save m d1 options1 cb1 (on i)).2 in
  well_formed options2 cb2 = Some (opts2, cb2') ->
  key_not_stamped m ->
  r_table d2 (tableName m) = None ->
  r_write d2 (Update (tableName m) v (stamped m d2 i1) true) = None ->
  exists rest,
    log (save m d2 options2 cb2 (on i1)).2 =
      Run (Update (tableName m) v (stamped m d2 i1) true) opts2 :: rest /\
    List.filter is_run rest = [].
Proof.
  intros Hwf1 Ht1 Hw1 Hrun1 Herr Hrow Hid Hv Hobj i1 Hwf2 Hk Ht2 Hw2.
  assert (Hkey : attributes i1 !! idAttribute m = Some v).
  { subst i1.
    rewrite (save_succeeds _ _ _ _ _ _ _ _ Hwf1 Ht1 Hw1 Hrun1 Herr), Hrow.
    cbn [with_attributes attributes]. rewrite deepMixIn_value_obj.
    exact (deepMixIn_lookup_overwrite _ _ _ _ Hid Hobj). }
  assert (Hq : save_query m (stamped m d2 i1) =
               Update (tableName m) v (stamped m d2 i1) true).
  { rewrite (save_query_expected m d2 i1 Hk).
    unfold expected_write, isNew, get, field. rewrite Hkey. cbn [from_option id].
    rewrite Hv. reflexivity. }
  rewrite <- Hq in *.
  exact (save_log_head m d2 options2 cb2 i1 opts2 cb2' Hwf2 Ht2 Hw2).
Qed.

Lemma save_again_updates_witness :
  let cursor : obj :=
    <["errors" := VNum 0]>
      {[ "new_val" := VObj (<["id" := VStr "4a16"]> Scenario.inserted_row) ]} in
  let d := Scenario.stub (RunGives cursor) in
  let i1 := self (save (Scenario.Person true false) d
                    Scenario.done VUndefined (on Scenario.john)).2 in
  exists rest,
    log (save (Scenario.Person true false) d Scenario.done VUndefined (on i1)).2 =
      Run (Update "person" (VStr "4a16")
             (stamped (Scenario.Person true false) d i1) true) ∅ :: rest /\
    List.filter is_run rest = [].
Proof.
  assert (Hk : key_not_stamped (Scenario.Person true false)).
  { right. repeat split; intros H; vm_compute in H; discriminate H. }
  exact (save_again_updates (Scenario.Person true false)
           (Scenario.stub
              (RunGives
                 (<["errors" := VNum 0]>
                    {[ "new_val" :=
                         VObj (<["id" := VStr "4a16"]> Scenario.inserted_row) ]})))
           (Scenario.stub
              (RunGives
                 (<["errors" := VNum 0]>
                    {[ "new_val" :=
                         VObj (<["id" := VStr "4a16"]> Scenario.inserted_row) ]})))
           Scenario.done VUndefined Scenario.done VUndefined
           Scenario.john ∅ ∅ Scenario.done Scenario.done
           (<["errors" := VNum 0]>
              {[ "new_val" := VObj (<["id" := VStr "4a16"]> Scenario.inserted_row) ]})
           (<["id" := VStr "4a16"]> Scenario.inserted_row) (VStr "4a16")
           eq_refl eq_refl eq_refl eq_refl eq_refl eq_refl eq_refl eq_refl eq_refl
           eq_refl Hk eq_refl eq_refl).
Defined.

Lemma stamped_keeps_keys (m : model) (d : env) (i : instance) (k : string) :
  is_Some (attributes i !! k) -> is_Some (stamped m d i !! k).
Proof.
  intros Hk. unfold stamped.
  destruct (timestamps m); [|exact Hk].
  destruct (isNew m i);
    repeat (rewrite lookup_insert; case_decide; [eauto|]); exact Hk.
Qed.

Lemma deepMixIn_value_keeps_keys (target : obj) (source : value) (k : string) :
  is_Some (target !! k) -> is_Some (deepMixIn_value target source !! k).
Proof.
  intros Hk. unfold deepMixIn_value.
  destruct (truthy source); [|exact Hk].
  apply mixer_keeps_keys. exact Hk.
Qed.

(** X22. [save] never drops an attribute: whatever the call and its
    outcome, every key the attributes had before is still there
    afterwards. *)
Theorem save_keeps_keys (m : model) (d : env) (options cb : value)
    (i : instance) (k : string) :
  is_Some (attributes i !! k) ->
  is_Some (attributes (self (save m d options cb (on i)).2) !! k).
Proof.
  intros Hk.
  destruct (well_formed options cb) as [[opts cb']|] eqn:Hwf.
  - rewrite (save_run _ _ _ _ _ _ _ Hwf).
    pose proof (stamped_keeps_keys m d i k Hk) as Hs.
    destruct (r_table d (tableName m)); [exact Hk|]. cbv zeta.
    destruct (r_write d (save_query m (stamped m d i))); [exact Hs|].
    destruct (connection_run d (save_query m (stamped m d i)) opts) as [e|e|cursor];
      [exact Hs|exact Hs|].
    destruct (not_strictly_zero (field cursor "errors")); [exact Hs|].
    apply deepMixIn_value_keeps_keys. exact Hs.
  - unfold well_formed in Hwf. unfold save.
    destruct (call_shape options cb) as [o cb'].
    destruct (isFunction cb') eqn:Hcb; [|exact Hk]. cbn [negb].
    destruct o; try exact Hk.
    destruct cb'; try discriminate.
    destruct (truthy (field fields "context") && negb (isObject (field fields "context")));
      [exact Hk|discriminate].
Qed.

Lemma save_keeps_keys_witness :
  is_Some
    (attributes
       (self (save (Scenario.Person true false)
                (Scenario.stub (RunGives Scenario.insert_result))
                Scenario.done VUndefined (on Scenario.john)).2) !! "name").
Proof.
  refine (save_keeps_keys (Scenario.Person true false)
            (Scenario.stub (RunGives Scenario.insert_result))
            Scenario.done VUndefined Scenario.john "name" _).
  vm_compute. eauto.
Defined.

End ModelMore.
